(** * m5stack_pbhub: a shallow embedding of the PbHub driver

    The driver [m5stack_pbhub.py] talks to an M5Stack PbHub over I2C.  Every
    logical device (digital input/output, analog input, PWM output, servo,
    NeoPixel strip) caches one or more register selectors
    [_CHANNEL_BASE_REG[channel] | code] and performs short transactions on
    the hub's [I2CDevice].

    The embedding follows the Python source function by function, with
    the semantics of the Python language reference:
    - Python values are a small universe [pyval] (None, bool, int, float,
      str, list); [isinstance(v, int)] is true of booleans as in Python;
    - a float is the rational it denotes, nan or an infinity, and the
      rounding of float arithmetic is a parameter ([FloatFormat]);
    - exceptions are an [outcome]; code that touches the bus lives in a
      state-and-exception monad over the bus, and a [with ... as i2c] block
      is one recorded transaction;
    - attribute mutation is explicit state passing: a setter returns the
      object as it is left, also when it raises. *)

From Stdlib Require Import ZArith QArith Qround Qpower List String Bool Lia Lqa.
From Stdlib.Strings Require Import Byte.
Import ListNotations.

Open Scope Z_scope.

#[local] Set Warnings "-register-all".

(** ** Python values *)

(** A float is one of the two special values or a rational: every finite
    float is a rational number, the sign of zero is not kept. *)
Inductive pyfloat :=
| FNan
| FInf (negative : bool)
| FFin (q : Q).

Inductive pyval :=
| PyNone
| PyBool (b : bool)
| PyInt (z : Z)
| PyFloat (f : pyfloat)
| PyStr (s : string)
| PyList (l : list pyval).

Inductive exn :=
| ValueError
| TypeError
| IndexError
| OverflowError
| ZeroDivisionError
| AttributeError
| OSError.

Inductive outcome (A : Type) :=
| Ret (a : A)
| Raise (e : exn).

Arguments Ret {A} a.
Arguments Raise {A} e.

(** [isinstance(v, int)]: [bool] is a subclass of [int]. *)
Definition as_int (v : pyval) : option Z :=
  match v with
  | PyInt z => Some z
  | PyBool b => Some (Z.b2z b)
  | _ => None
  end.

(** [isinstance(v, float) or isinstance(v, int)], as a float. *)
Definition as_number (v : pyval) : option pyfloat :=
  match v with
  | PyFloat f => Some f
  | _ => option_map (fun z => FFin (inject_Z z)) (as_int v)
  end.

Definition float_lt (a b : pyfloat) : bool :=
  match a, b with
  | FNan, _ | _, FNan => false
  | FInf na, FInf nb => na && negb nb
  | FInf na, FFin _ => na
  | FFin _, FInf nb => negb nb
  | FFin x, FFin y => negb (Qle_bool y x)
  end.

(** [v == 0] for the values of the universe. *)
Definition py_eq_zero (v : pyval) : bool :=
  match v with
  | PyInt z => z =? 0
  | PyBool b => negb b
  | PyFloat (FFin q) => Qeq_bool q 0
  | _ => false
  end.

(** Truth value of [v] in a conditional expression. *)
Definition py_truthy (v : pyval) : bool :=
  match v with
  | PyNone => false
  | PyBool b => b
  | PyInt z => negb (z =? 0)
  | PyFloat (FFin q) => negb (Qeq_bool q 0)
  | PyFloat _ => true
  | PyStr s => negb (String.eqb s EmptyString)
  | PyList l => negb (Nat.eqb (List.length l) 0)
  end.

(** [seq[i]] for a list index that is an [int]: negative indices count from
    the end, anything else out of range is an [IndexError]. *)
Definition list_index {A : Type} (l : list A) (i : Z) : outcome A :=
  let n := Z.of_nat (List.length l) in
  let j := if i <? 0 then i + n else i in
  if (j <? 0) || (n <=? j) then Raise IndexError
  else match nth_error l (Z.to_nat j) with
       | Some a => Ret a
       | None => Raise IndexError
       end.

(** [v[i]] with a literal index [i]; indexing None, a number or a bool is a
    [TypeError]. *)
Definition py_getitem (v : pyval) (i : Z) : outcome pyval :=
  match v with
  | PyList l => list_index l i
  | PyStr s =>
      match list_index (list_ascii_of_string s) i with
      | Ret c => Ret (PyStr (String c EmptyString))
      | Raise e => Raise e
      end
  | _ => Raise TypeError
  end.

(** [v & m] with an [int] on the right. *)
Definition py_and (v : pyval) (m : Z) : outcome Z :=
  match as_int v with
  | Some z => Ret (Z.land z m)
  | None => Raise TypeError
  end.

(** Rounding half to even of a rational, the rule of [round] on a float. *)
Definition round_half_even (q : Q) : Z :=
  let f := Qfloor q in
  match Qcompare (q - inject_Z f) (1 # 2) with
  | Lt => f
  | Gt => f + 1
  | Eq => if Z.even f then f else f + 1
  end.

(** What the platform's float format does to an exact result.  CPython
    rounds to binary64 and CircuitPython boards to narrower formats; the
    driver only relies on the rounding staying between two small integers
    that enclose the exact result, which every correctly rounded format
    with at least 18 bits of mantissa does ([binary_format] below). *)
Class FloatFormat := {
  fround : Q -> pyfloat;
  fround_interval :
    forall (lo hi : Z) (q : Q),
      -65536 <= lo -> hi <= 65536 ->
      (inject_Z lo <= q)%Q -> (q <= inject_Z hi)%Q ->
      exists r,
        fround q = FFin r /\ (inject_Z lo <= r)%Q /\ (r <= inject_Z hi)%Q
}.

(** The format that never rounds. *)
#[export] Instance exact_format : FloatFormat :=
  {| fround := FFin;
     fround_interval := fun lo hi q _ _ Hlo Hhi =>
       ex_intro _ q (conj eq_refl (conj Hlo Hhi)) |}.

(** Binary floating point: [floor (log2 |q|)] of a rational that is not
    zero, and rounding to the nearest number with [p] bits of mantissa, ties
    to even, with the exponent left unbounded (53 bits is CPython's float,
    24 bits a single-precision board). *)
Definition Qlog2 (q : Q) : Z :=
  let n := Z.abs (Qnum q) in
  let d := Zpos (Qden q) in
  let l := Z.log2 n - Z.log2 d in
  if 0 <=? l
  then (if d * 2 ^ l <=? n then l else l - 1)
  else (if d <=? n * 2 ^ (- l) then l else l - 1).

Definition round_to (p : Z) (q : Q) : pyfloat :=
  if Qeq_bool q 0 then FFin 0
  else
    let e := Qlog2 q - (p - 1) in
    FFin (inject_Z (round_half_even (q * Qpower 2 (- e))) * Qpower 2 e).

(** ** Exceptions and state *)

(** A computation over a state [S] that returns or raises; the state it
    leaves is kept in both cases, as a Python object keeps its mutations
    when an exception propagates. *)
Definition ST (S A : Type) : Type := S -> outcome A * S.

Definition ret {S A : Type} (a : A) : ST S A := fun s => (Ret a, s).

Definition raise {S A : Type} (e : exn) : ST S A := fun s => (Raise e, s).

Definition bind {S A B : Type} (m : ST S A) (k : A -> ST S B) : ST S B :=
  fun s =>
    match m s with
    | (Ret a, s') => k a s'
    | (Raise e, s') => (Raise e, s')
    end.

Definition lift {S A : Type} (o : outcome A) : ST S A := fun s => (o, s).

Declare Scope py_scope.
Delimit Scope py_scope with py.
Notation "x <- m ;; k" := (bind m (fun x => k))
  (at level 61, m at next level, right associativity) : py_scope.
Notation "m ;;; k" := (bind m (fun _ => k))
  (at level 61, right associativity) : py_scope.
Open Scope py_scope.

(** ** The I2C device *)

(** What goes over the wire inside one [with self.i2c_device as i2c] block:
    [i2c.write(buf)] with the bytes of [buf], [i2c.readinto(buf)] with the
    length of [buf]. *)
Inductive op :=
| Write (data : list Z)
| ReadInto (len : nat).

(** The state of an open device handle: the operations of the transaction
    so far and the bytes the hub will answer with. *)
Record wire := { ops : list op; rx : list byte }.

(** The hub's [I2CDevice]: the finished transactions, oldest first, and the
    bytes the hub will answer with. *)
Record bus := { txs : list (list op); pending : list byte }.

Definition byte_val (b : byte) : Z := Z.of_N (Byte.to_N b).

Definition i2c_write (buf : list Z) : ST wire unit :=
  fun w => (Ret tt, {| ops := ops w ++ [Write buf]; rx := rx w |}).

(** [i2c.readinto(buf)] fills the whole buffer; a hub that does not answer
    is a transport error. *)
Definition i2c_readinto (len : nat) : ST wire (list Z) :=
  fun w =>
    if (len <=? List.length (rx w))%nat
    then (Ret (map byte_val (firstn len (rx w))),
          {| ops := ops w ++ [ReadInto len]; rx := skipn len (rx w) |})
    else (Raise OSError, {| ops := ops w ++ [ReadInto len]; rx := [] |}).

(** [with self.i2c_device as i2c: body]: the handle is released, and the
    transaction recorded, on every exit path. *)
Definition with_device {A : Type} (body : ST wire A) : ST bus A :=
  fun b =>
    let '(r, w) := body {| ops := []; rx := pending b |} in
    (r, {| txs := txs b ++ [ops w]; pending := rx w |}).

(** [bytearray(n)] and [buf[i] = v]; a value outside [range(256)] is a
    [ValueError]. *)
Definition bytearray (n : nat) : list Z := repeat 0 n.

Definition store (buf : list Z) (i : nat) (v : Z) : outcome (list Z) :=
  if negb (i <? List.length buf)%nat then Raise IndexError
  else if (v <? 0) || (255 <? v) then Raise ValueError
  else Ret (firstn i buf ++ v :: skipn (S i) buf).

(** [buf[i]] on a bytearray the code has just filled. *)
Definition load (buf : list Z) (i : nat) : Z := nth i buf 0.

(** [buf[i] = v] on a local bytearray, inside a computation. *)
Definition setbyte {S : Type} (buf : list Z) (i : nat) (v : Z)
  : ST S (list Z) := lift (store buf i v).

(** ** Module constants *)

Definition _CHANNEL_BASE_REG : list Z := [0x40; 0x50; 0x60; 0x70; 0x80; 0xA0].
Definition _MAX_NUM_OF_LED : Z := 74.

(** [_CHANNEL_BASE_REG[channel]] for whatever [channel] holds. *)
Definition base_reg (channel : pyval) : outcome Z :=
  match as_int channel with
  | Some i => list_index _CHANNEL_BASE_REG i
  | None => Raise TypeError
  end.

(** ** class PbHub *)

(** The hub owns the [I2CDevice]; every method below runs on that one
    device, the [bus] of the monad. *)
Definition firmware_version : ST bus pyval :=
  let buf := bytearray 1 in
  buf <- setbyte buf 0 0xFE;;
  buf <- with_device (i2c_write buf;;; i2c_readinto (List.length buf));;
  ret (PyInt (load buf 0)).

(** ** class _PbHubChannel and its five subclasses *)

Inductive cls :=
| PbHubDigitalInput
| PbHubDigitalOutput
| PbHubAnalogInput
| PbHubPwmOutput
| PbHubServo.

(** An instance: the attributes [__init__] stores and the register
    attributes [_set_reg] creates ([None] while an attribute does not exist:
    [_reg_num] for four of the classes, [_reg_num_angle] and
    [_reg_num_pulse] for the servo). *)
Record PbHubChannel := {
  klass : cls;
  _channel : pyval;
  _io : pyval;
  _reg_num : option Z;
  _reg_num_angle : option Z;
  _reg_num_pulse : option Z
}.

Definition set_channel (v : pyval) : ST PbHubChannel unit :=
  fun self =>
    (Ret tt, {| klass := klass self; _channel := v; _io := _io self;
                _reg_num := _reg_num self;
                _reg_num_angle := _reg_num_angle self;
                _reg_num_pulse := _reg_num_pulse self |}).

Definition set_io (v : pyval) : ST PbHubChannel unit :=
  fun self =>
    (Ret tt, {| klass := klass self; _channel := _channel self; _io := v;
                _reg_num := _reg_num self;
                _reg_num_angle := _reg_num_angle self;
                _reg_num_pulse := _reg_num_pulse self |}).

Definition set_reg_num (r : Z) : ST PbHubChannel unit :=
  fun self =>
    (Ret tt, {| klass := klass self; _channel := _channel self;
                _io := _io self; _reg_num := Some r;
                _reg_num_angle := _reg_num_angle self;
                _reg_num_pulse := _reg_num_pulse self |}).

Definition set_reg_num_angle (r : Z) : ST PbHubChannel unit :=
  fun self =>
    (Ret tt, {| klass := klass self; _channel := _channel self;
                _io := _io self; _reg_num := _reg_num self;
                _reg_num_angle := Some r;
                _reg_num_pulse := _reg_num_pulse self |}).

Definition set_reg_num_pulse (r : Z) : ST PbHubChannel unit :=
  fun self =>
    (Ret tt, {| klass := klass self; _channel := _channel self;
                _io := _io self; _reg_num := _reg_num self;
                _reg_num_angle := _reg_num_angle self;
                _reg_num_pulse := Some r |}).

(** [_CHANNEL_BASE_REG[self._channel] | (c0 if self._io == 0 else c1)] *)
Definition io_reg (c0 c1 : Z) : ST PbHubChannel Z :=
  fun self =>
    match base_reg (_channel self) with
    | Ret b => (Ret (Z.lor b (if py_eq_zero (_io self) then c0 else c1)), self)
    | Raise e => (Raise e, self)
    end.

(** [_CHANNEL_BASE_REG[self._channel] | c] *)
Definition chan_reg (c : Z) : ST PbHubChannel Z :=
  fun self =>
    match base_reg (_channel self) with
    | Ret b => (Ret (Z.lor b c), self)
    | Raise e => (Raise e, self)
    end.

(** [_set_reg], dispatched on the class of [self]. *)
Definition _set_reg : ST PbHubChannel unit :=
  fun self =>
    match klass self with
    | PbHubDigitalInput => (r <- io_reg 0x04 0x05;; set_reg_num r) self
    | PbHubDigitalOutput => (r <- io_reg 0x00 0x01;; set_reg_num r) self
    | PbHubAnalogInput => (r <- chan_reg 0x06;; set_reg_num r) self
    | PbHubPwmOutput => (r <- io_reg 0x02 0x03;; set_reg_num r) self
    | PbHubServo =>
        (a <- io_reg 0x0C 0x0D;; set_reg_num_angle a;;;
         p <- io_reg 0x0E 0x0F;; set_reg_num_pulse p) self
    end.

(** [_PbHubChannel.__init__], reached through [super().__init__] by every
    subclass: the arguments are stored as given and [_set_reg] runs; an
    exception leaves no object. *)
Definition PbHubChannel_init (k : cls) (channel io : pyval)
  : outcome PbHubChannel :=
  match _set_reg {| klass := k; _channel := channel; _io := io;
                    _reg_num := None; _reg_num_angle := None;
                    _reg_num_pulse := None |} with
  | (Ret _, self) => Ret self
  | (Raise e, _) => Raise e
  end.

(** [PbHubAnalogInput.__init__] takes no io and passes 0. *)
Definition PbHubAnalogInput_init (channel : pyval) : outcome PbHubChannel :=
  PbHubChannel_init PbHubAnalogInput channel (PyInt 0).

(** The [channel] property. *)
Definition channel_get (self : PbHubChannel) : pyval := _channel self.

Definition channel_set (value : pyval) : ST PbHubChannel unit :=
  match as_int value with
  | None => raise ValueError
  | Some v =>
      if (v <? 0) || (v >? 5) then raise ValueError
      else set_channel value;;; _set_reg
  end.

(** The [io] property. *)
Definition io_get (self : PbHubChannel) : pyval := _io self.

Definition io_set (value : pyval) : ST PbHubChannel unit :=
  match as_int value with
  | None => raise ValueError
  | Some v =>
      if (v <? 0) || (v >? 1) then raise ValueError
      else set_io value;;; _set_reg
  end.

(** Reading a register attribute; one that does not exist is an
    [AttributeError]. *)
Definition attr {S : Type} (a : option Z) : ST S Z :=
  match a with
  | Some r => ret r
  | None => raise AttributeError
  end.

(** *** PbHubDigitalInput *)

Definition DigitalInput_value (self : PbHubChannel) : ST bus pyval :=
  let buf := bytearray 1 in
  r <- attr (_reg_num self);;
  buf <- setbyte buf 0 r;;
  buf <- with_device (i2c_write buf;;; i2c_readinto (List.length buf));;
  ret (PyBool (load buf 0 =? 1)).

(** *** PbHubDigitalOutput *)

Definition DigitalOutput_value (self : PbHubChannel) : ST bus pyval :=
  let buf := bytearray 1 in
  r <- attr (_reg_num self);;
  buf <- setbyte buf 0 r;;
  buf <- with_device (i2c_write buf;;; i2c_readinto (List.length buf));;
  ret (PyBool (load buf 0 =? 1)).

Definition DigitalOutput_value_set (self : PbHubChannel) (value : pyval)
  : ST bus unit :=
  let buf := bytearray 2 in
  with_device
    (r <- attr (_reg_num self);;
     buf <- setbyte buf 0 r;;
     buf <- setbyte buf 1 (if py_truthy value then 0x01 else 0x00);;
     i2c_write buf).

(** *** PbHubAnalogInput *)

Definition AnalogInput_value (self : PbHubChannel) : ST bus pyval :=
  let buf := bytearray 1 in
  r <- attr (_reg_num self);;
  buf <- setbyte buf 0 r;;
  let bufRet := bytearray 2 in
  bufRet <- with_device
              (i2c_write buf;;; i2c_readinto (List.length bufRet));;
  ret (PyInt (Z.lor (Z.shiftl (load bufRet 1) 8) (load bufRet 0))).

(** *** PbHubPwmOutput *)

Definition PwmOutput_value (self : PbHubChannel) : ST bus pyval :=
  let buf := bytearray 1 in
  r <- attr (_reg_num self);;
  buf <- setbyte buf 0 r;;
  buf <- with_device (i2c_write buf;;; i2c_readinto (List.length buf));;
  ret (PyInt (load buf 0)).

Definition PwmOutput_value_set (self : PbHubChannel) (value : pyval)
  : ST bus unit :=
  match as_int value with
  | None => raise ValueError
  | Some v =>
      if (v <? 0) || (v >? 255) then raise ValueError
      else
        let buf := bytearray 2 in
        with_device
          (r <- attr (_reg_num self);;
           buf <- setbyte buf 0 r;;
           buf <- setbyte buf 1 (Z.land v 0xFF);;
           i2c_write buf)
  end.

(** *** PbHubServo *)

Definition Servo_angle (self : PbHubChannel) : ST bus pyval :=
  let buf := bytearray 1 in
  r <- attr (_reg_num_angle self);;
  buf <- setbyte buf 0 r;;
  buf <- with_device (i2c_write buf;;; i2c_readinto (List.length buf));;
  ret (PyInt (load buf 0)).

Definition Servo_angle_set (self : PbHubChannel) (angle : pyval)
  : ST bus unit :=
  match as_int angle with
  | None => raise ValueError
  | Some v =>
      if (v <? 0) || (v >? 180) then raise ValueError
      else
        let buf := bytearray 2 in
        with_device
          (r <- attr (_reg_num_angle self);;
           buf <- setbyte buf 0 r;;
           buf <- setbyte buf 1 v;;
           i2c_write buf)
  end.

Definition Servo_pulse (self : PbHubChannel) : ST bus pyval :=
  let buf := bytearray 1 in
  r <- attr (_reg_num_pulse self);;
  buf <- setbyte buf 0 r;;
  let bufRet := bytearray 2 in
  bufRet <- with_device
              (i2c_write buf;;; i2c_readinto (List.length bufRet));;
  ret (PyInt (Z.lor (Z.shiftl (load bufRet 1) 8) (load bufRet 0))).

Definition Servo_pulse_set (self : PbHubChannel) (pulse_width : pyval)
  : ST bus unit :=
  match as_int pulse_width with
  | None => raise ValueError
  | Some v =>
      if (v <? 500) || (v >? 2500) then raise ValueError
      else
        let buf := bytearray 3 in
        with_device
          (r <- attr (_reg_num_pulse self);;
           buf <- setbyte buf 0 r;;
           buf <- setbyte buf 1 (Z.land v 0xFF);;
           buf <- setbyte buf 2 (Z.shiftr (Z.land v 0xFF00) 8);;
           i2c_write buf)
  end.

(** ** Float arithmetic used by the LED brightness *)

Section FloatOps.
Context {FF : FloatFormat}.

Definition Qneg_bool (q : Q) : bool := negb (Qle_bool 0 q).

(** [a * b] on floats. *)
Definition float_mul (a b : pyfloat) : pyfloat :=
  match a, b with
  | FNan, _ | _, FNan => FNan
  | FFin x, FFin y => fround (x * y)
  | FInf s, FFin y | FFin y, FInf s =>
      if Qeq_bool y 0 then FNan else FInf (xorb s (Qneg_bool y))
  | FInf s, FInf t => FInf (xorb s t)
  end.

(** [a / b] on floats; a zero divisor raises. *)
Definition float_div (a b : pyfloat) : outcome pyfloat :=
  match a, b with
  | _, FFin y =>
      if Qeq_bool y 0 then Raise ZeroDivisionError
      else match a with
           | FNan => Ret FNan
           | FInf s => Ret (FInf (xorb s (Qneg_bool y)))
           | FFin x => Ret (fround (x / y))
           end
  | FNan, _ | _, FNan => Ret FNan
  | FInf _, FInf _ => Ret FNan
  | FFin _, FInf _ => Ret (FFin 0)
  end.

(** [a * b] when both are numbers: two ints multiply exactly, otherwise
    both become floats. *)
Definition py_mul (a b : pyval) : outcome pyval :=
  match as_int a, as_int b with
  | Some x, Some y => Ret (PyInt (x * y))
  | _, _ =>
      match as_number a, as_number b with
      | Some x, Some y => Ret (PyFloat (float_mul x y))
      | _, _ => Raise TypeError
      end
  end.

(** [a / b] when both are numbers: always a float. *)
Definition py_truediv (a b : pyval) : outcome pyval :=
  match as_number a, as_number b with
  | Some x, Some y =>
      match float_div x y with
      | Ret f => Ret (PyFloat f)
      | Raise e => Raise e
      end
  | _, _ => Raise TypeError
  end.

(** [round(v)]: an int is itself, a float goes to the nearest int, ties to
    even; nan and the infinities raise. *)
Definition py_round (v : pyval) : outcome Z :=
  match v with
  | PyFloat FNan => Raise ValueError
  | PyFloat (FInf _) => Raise OverflowError
  | PyFloat (FFin q) => Ret (round_half_even q)
  | _ => match as_int v with
         | Some z => Ret z
         | None => Raise TypeError
         end
  end.

(** [round(v, 2)] on a float: the nearest multiple of 1/100 of its exact
    value, ties to even, as a float. *)
Definition py_round2 (v : pyval) : outcome pyval :=
  match v with
  | PyFloat (FFin q) =>
      Ret (PyFloat (fround (inject_Z (round_half_even (q * 100)) / 100)))
  | PyFloat f => Ret (PyFloat f)
  | _ => match as_int v with
         | Some z => Ret (PyInt z)
         | None => Raise TypeError
         end
  end.

End FloatOps.

(** ** class NeoPixels *)

(** The index of [strip[index] = color]: a slice object, of which the code
    reads [start] and [stop] and never [step] (an omitted bound is [None];
    bounds that are neither an int nor omitted are not modelled), or any
    other value. *)
Inductive pyindex :=
| Slice (start stop step : option Z)
| Index (v : pyval).

Module NeoPixels.

Record t := {
  _channel : pyval;
  _reg_num_num_leds : Z;
  _reg_num_brightness : Z;
  _reg_num_one_led_color : Z;
  _reg_num_range_led_color : Z
}.

(** [_set_reg] on an instance whose [_channel] is [channel]. *)
Definition _set_reg (channel : pyval) : outcome t :=
  match base_reg channel with
  | Ret b =>
      Ret {| _channel := channel;
             _reg_num_num_leds := Z.lor b 0x08;
             _reg_num_brightness := Z.lor b 0x0B;
             _reg_num_one_led_color := Z.lor b 0x09;
             _reg_num_range_led_color := Z.lor b 0x0A |}
  | Raise e => Raise e
  end.

Definition channel (self : t) : pyval := _channel self.

Definition number_of_leds (self : t) : ST bus pyval :=
  let buf := bytearray 1 in
  buf <- setbyte buf 0 (_reg_num_num_leds self);;
  buf <- with_device (i2c_write buf;;; i2c_readinto (List.length buf));;
  ret (PyInt (load buf 0)).

Definition number_of_leds_set (self : t) (number : pyval) : ST bus unit :=
  match as_int number with
  | None => raise ValueError
  | Some n =>
      if (n <? 0) || (n >? _MAX_NUM_OF_LED) then raise ValueError
      else
        let buf := bytearray 3 in
        with_device
          (buf <- setbyte buf 0 (_reg_num_num_leds self);;
           buf <- setbyte buf 1 (Z.land n 0xFF);;
           buf <- setbyte buf 2 (Z.land (Z.shiftr n 8) 0xFF);;
           i2c_write buf)
  end.

(** The three color stores at [buf[i]], [buf[i+1]], [buf[i+2]]: from the
    bits of an int, or from the first three items of anything else. *)
Definition store_color {S : Type} (buf : list Z) (i : nat) (color : pyval)
  : ST S (list Z) :=
  match as_int color with
  | Some c =>
      buf <- setbyte buf i (Z.land (Z.shiftr c 16) 0xFF);;
      buf <- setbyte buf (i + 1) (Z.land (Z.shiftr c 8) 0xFF);;
      setbyte buf (i + 2) (Z.land c 0xFF)
  | None =>
      c0 <- lift (py_getitem color 0);;
      r <- lift (py_and c0 0xFF);;
      buf <- setbyte buf i r;;
      c1 <- lift (py_getitem color 1);;
      g <- lift (py_and c1 0xFF);;
      buf <- setbyte buf (i + 1) g;;
      c2 <- lift (py_getitem color 2);;
      b <- lift (py_and c2 0xFF);;
      setbyte buf (i + 2) b
  end.

Definition __setitem__ (self : t) (index : pyindex) (color : pyval)
  : ST bus unit :=
  match index with
  | Slice start stop _ =>
      match start with
      | None => raise TypeError
      | Some start =>
          if (start <? 0) || (start >? _MAX_NUM_OF_LED)
          then raise ValueError
          else
            match stop with
            | None => raise TypeError
            | Some stop =>
                if (stop <? 0) || (stop >? _MAX_NUM_OF_LED)
                then raise ValueError
                else if stop <? start then raise ValueError
                else
                  let count := stop - start in
                  if count =? 0 then ret tt
                  else
                    let buf := bytearray 8 in
                    buf <- setbyte buf 0 (_reg_num_range_led_color self);;
                    buf <- setbyte buf 1 (Z.land start 0xFF);;
                    buf <- setbyte buf 2 (Z.land (Z.shiftr start 8) 0xFF);;
                    buf <- setbyte buf 3 (Z.land count 0xFF);;
                    buf <- setbyte buf 4 (Z.land (Z.shiftr count 8) 0xFF);;
                    buf <- store_color buf 5 color;;
                    with_device (i2c_write buf)
            end
      end
  | Index index =>
      match as_int index with
      | None => raise ValueError
      | Some i =>
          if (i <? 0) || (i >? _MAX_NUM_OF_LED) then raise ValueError
          else
            let buf := bytearray 6 in
            buf <- setbyte buf 0 (_reg_num_one_led_color self);;
            buf <- setbyte buf 1 (Z.land i 0xFF);;
            buf <- setbyte buf 2 (Z.land (Z.shiftr i 8) 0xFF);;
            buf <- store_color buf 3 color;;
            with_device (i2c_write buf)
      end
  end.

(** [self[0 : self.number_of_leds] = color] *)
Definition fill (self : t) (color : pyval) : ST bus unit :=
  n <- number_of_leds self;;
  __setitem__ self (Slice (Some 0) (as_int n) None) color.

Section WithFloat.
Context {FF : FloatFormat}.

Definition brightness (self : t) : ST bus pyval :=
  let buf := bytearray 1 in
  buf <- setbyte buf 0 (_reg_num_num_leds self);;
  buf <- with_device (i2c_write buf;;; i2c_readinto (List.length buf));;
  q <- lift (py_truediv (PyInt (load buf 0)) (PyFloat (FFin 255)));;
  lift (py_round2 q).

Definition brightness_set (self : t) (value : pyval) : ST bus unit :=
  match as_number value with
  | None => raise ValueError
  | Some x =>
      if float_lt x (FFin 0) || float_lt (FFin 1) x then raise ValueError
      else
        let buf := bytearray 2 in
        buf <- setbyte buf 0 (_reg_num_brightness self);;
        p <- lift (py_mul (PyInt 255) value);;
        r <- lift (py_round p);;
        buf <- setbyte buf 1 r;;
        with_device (i2c_write buf)
  end.

Definition default_brightness : pyval := PyFloat (FFin (1 # 2)).

Definition __init__ (channel number_of_leds brightness : pyval)
  : ST bus t :=
  match as_int channel with
  | None => raise ValueError
  | Some c =>
      if (c <? 0) || (c >? 5) then raise ValueError
      else
        self <- lift (_set_reg channel);;
        number_of_leds_set self number_of_leds;;;
        brightness_set self brightness;;;
        ret self
  end.

End WithFloat.

End NeoPixels.

(** ** What the statements speak about *)

(** The bus after one more transaction [tx], with [rest] left to answer. *)
Definition after (b : bus) (tx : list op) (rest : list byte) : bus :=
  {| txs := txs b ++ [tx]; pending := rest |}.

(** The bus after one more transaction made of a single write. *)
Definition sent (b : bus) (data : list Z) : bus :=
  after b [Write data] (pending b).

(** The register selectors that went over the wire: the first byte of
    every write, in order. *)
Definition op_selector (o : op) : list Z :=
  match o with
  | Write (s :: _) => [s]
  | _ => []
  end.

Definition selectors (b : bus) : list Z :=
  flat_map (flat_map op_selector) (txs b).

(** The register map as the hub documents it: base byte of a channel,
    sub-function code, selector. *)
Inductive subfunction :=
| DigitalIn
| DigitalOut
| AnalogIn
| PwmOut
| ServoAngle
| ServoPulse
| LedCount
| LedPixel
| LedRange
| LedBrightness.

Definition base (c : Z) : Z :=
  nth (Z.to_nat c) [0x40; 0x50; 0x60; 0x70; 0x80; 0xA0] 0.

Definition code (f : subfunction) (io : Z) : Z :=
  match f with
  | DigitalIn => if io =? 0 then 0x04 else 0x05
  | DigitalOut => if io =? 0 then 0x00 else 0x01
  | AnalogIn => 0x06
  | PwmOut => if io =? 0 then 0x02 else 0x03
  | ServoAngle => if io =? 0 then 0x0C else 0x0D
  | ServoPulse => if io =? 0 then 0x0E else 0x0F
  | LedCount => 0x08
  | LedPixel => 0x09
  | LedRange => 0x0A
  | LedBrightness => 0x0B
  end.

Definition selector (f : subfunction) (c io : Z) : Z :=
  Z.lor (base c) (code f io).

(** The packed form [0xRRGGBB] of a color. *)
Definition pack (r g b : Z) : Z :=
  Z.lor (Z.lor (Z.shiftl r 16) (Z.shiftl g 8)) b.

(** The three bytes a color puts on the wire, when it is an int or a
    sequence whose first three items are ints. *)
Definition rgb_of (color : pyval) : option (Z * Z * Z) :=
  match as_int color with
  | Some c =>
      Some (Z.land (Z.shiftr c 16) 0xFF, Z.land (Z.shiftr c 8) 0xFF,
            Z.land c 0xFF)
  | None =>
      match color with
      | PyList (c0 :: c1 :: c2 :: _) =>
          match as_int c0, as_int c1, as_int c2 with
          | Some r, Some g, Some b =>
              Some (Z.land r 0xFF, Z.land g 0xFF, Z.land b 0xFF)
          | _, _, _ => None
          end
      | _ => None
      end
  end.

(** A number of the closed interval from 0.0 to 1.0. *)
Definition in_unit (x : pyfloat) : bool :=
  match x with
  | FFin q => Qle_bool 0 q && Qle_bool q 1
  | _ => false
  end.

(** [round(255 * value)] *)
Definition brightness_byte {FF : FloatFormat} (value : pyval) : outcome Z :=
  match py_mul (PyInt 255) value with
  | Ret p => py_round p
  | Raise e => Raise e
  end.

(** An instance as [NeoPixels.__init__] leaves it: the channel passed the
    check and [_set_reg] has run. *)
Definition constructed (self : NeoPixels.t) : Prop :=
  exists (channel : pyval) (c : Z),
    as_int channel = Some c /\ 0 <= c <= 5 /\
    NeoPixels._set_reg channel = Ret self.

(** The led-count getter as the specification words it: a one-byte
    selector write, then a two-byte little-endian read. *)
Definition led_count_two_byte_read (self : NeoPixels.t) : ST bus pyval :=
  bufRet <- with_device
              (i2c_write [NeoPixels._reg_num_num_leds self];;;
               i2c_readinto 2);;
  ret (PyInt (Z.lor (load bufRet 0) (Z.shiftl (load bufRet 1) 8))).

(** Concrete instances and hubs for the examples. *)
Definition strip0 : NeoPixels.t :=
  {| NeoPixels._channel := PyInt 0;
     NeoPixels._reg_num_num_leds := 0x48;
     NeoPixels._reg_num_brightness := 0x4B;
     NeoPixels._reg_num_one_led_color := 0x49;
     NeoPixels._reg_num_range_led_color := 0x4A |}.

Definition idle : bus := {| txs := []; pending := [] |}.

Definition answering (l : list byte) : bus := {| txs := []; pending := l |}.

(** An endpoint whose cached selectors are the ones [_set_reg] computes
    from its current channel and io. *)
Definition in_sync (self : PbHubChannel) : Prop :=
  _set_reg self = (Ret tt, self).

(** A program that assigns to the [channel] and [io] properties of one
    endpoint and carries on after a rejected assignment. *)
Inductive assignment :=
| AssignChannel (value : pyval)
| AssignIo (value : pyval).

Definition assign (a : assignment) : ST PbHubChannel unit :=
  match a with
  | AssignChannel value => channel_set value
  | AssignIo value => io_set value
  end.

Fixpoint assign_all (l : list assignment) (self : PbHubChannel)
  : PbHubChannel :=
  match l with
  | [] => self
  | a :: l' => assign_all l' (snd (assign a self))
  end.

(** Every register attribute the instance has is a byte. *)
Definition byte_attr (a : option Z) : Prop :=
  match a with
  | Some r => 0 <= r <= 255
  | None => True
  end.

(** A hub register that keeps the payload of the last write and answers a
    read with it: the bytes after the selector. *)
Definition to_byte (z : Z) : byte :=
  match Byte.of_N (Z.to_N z) with
  | Some b => b
  | None => x00
  end.

Definition echo (data : list Z) : list byte := map to_byte (tl data).

Definition byte_attrs (self : PbHubChannel) : Prop :=
  byte_attr (_reg_num self) /\ byte_attr (_reg_num_angle self) /\
  byte_attr (_reg_num_pulse self).

(** An endpoint that is exactly what the constructor of its class builds
    from its current channel and io. *)
Definition fresh (self : PbHubChannel) : Prop :=
  PbHubChannel_init (klass self) (_channel self) (_io self) = Ret self.

(** An endpoint whose channel and io are ints of the documented ranges. *)
Definition in_range (self : PbHubChannel) : Prop :=
  (exists c, as_int (_channel self) = Some c /\ 0 <= c <= 5) /\
  (exists i, as_int (_io self) = Some i /\ 0 <= i <= 1).

(** Concrete endpoints for the examples. *)
Definition servo_2_1 : PbHubChannel :=
  {| klass := PbHubServo; _channel := PyInt 2; _io := PyInt 1;
     _reg_num := None; _reg_num_angle := Some 0x6D;
     _reg_num_pulse := Some 0x6F |}.

Definition input_0_0 : PbHubChannel :=
  {| klass := PbHubDigitalInput; _channel := PyInt 0; _io := PyInt 0;
     _reg_num := Some 0x44; _reg_num_angle := None; _reg_num_pulse := None |}.

Definition output_5_1 : PbHubChannel :=
  {| klass := PbHubDigitalOutput; _channel := PyInt 5; _io := PyInt 1;
     _reg_num := Some 0xA1; _reg_num_angle := None; _reg_num_pulse := None |}.

Definition analog_3 : PbHubChannel :=
  {| klass := PbHubAnalogInput; _channel := PyInt 3; _io := PyInt 0;
     _reg_num := Some 0x76; _reg_num_angle := None; _reg_num_pulse := None |}.

Definition pwm_1_0 : PbHubChannel :=
  {| klass := PbHubPwmOutput; _channel := PyInt 1; _io := PyInt 0;
     _reg_num := Some 0x52; _reg_num_angle := None; _reg_num_pulse := None |}.

(** The bus after one more read transaction: the selector [r] written, [n]
    bytes read back, [rest] left to answer. *)
Definition read_done (t : list (list op)) (r : Z) (n : nat)
  (rest : list byte) : bus :=
  {| txs := t ++ [[Write [r]; ReadInto n]]; pending := rest |}.

(** A computation that only fills a local buffer of [n] bytes: it returns
    such a buffer or raises, and leaves the bus as it found it. *)
Definition builds (n : nat) (m : ST bus (list Z)) : Prop :=
  forall s,
    (exists buf, m s = (Ret buf, s) /\ List.length buf = n) \/
    (exists e, m s = (Raise e, s)).

(** The two ways a write of [n] bytes ends: an exception with the bus as
    it was, or the bus with exactly one more transaction, a single write of
    [n] bytes. *)
Definition written (n : nat) (b : bus) (r : outcome unit * bus) : Prop :=
  (exists e, r = (Raise e, b)) \/
  (exists data, r = (Ret tt, sent b data) /\ List.length data = n).



(** * Properties *)

(** ** Bytes and bits *)

Lemma store_ok (buf : list Z) (i : nat) (v : Z) :
  (i < List.length buf)%nat -> 0 <= v <= 255 ->
  store buf i v = Ret (firstn i buf ++ v :: skipn (S i) buf).
Proof.
  intros Hi Hv. unfold store.
  apply Nat.ltb_lt in Hi. rewrite Hi. cbn [negb].
  replace ((v <? 0) || (255 <? v)) with false; [reflexivity|].
  symmetry. apply orb_false_iff. split; apply Z.ltb_ge; lia.
Qed.

Lemma land_byte (z : Z) : 0 <= Z.land z 0xFF <= 255.
Proof.
  change (Z.land z 0xFF) with (Z.land z (Z.ones 8)).
  rewrite Z.land_ones by lia. change (2 ^ 8) with 256.
  pose proof (Z.mod_pos_bound z 256 eq_refl). lia.
Qed.

Lemma land_byte_id (x : Z) : 0 <= x <= 255 -> Z.land x 0xFF = x.
Proof.
  intros Hx. change (Z.land x 0xFF) with (Z.land x (Z.ones 8)).
  rewrite Z.land_ones by lia. apply Z.mod_small.
  change (2 ^ 8) with 256. lia.
Qed.

Lemma byte_val_range (b : byte) : 0 <= byte_val b <= 255.
Proof.
  unfold byte_val. pose proof (Byte.to_N_bounded b) as H. lia.
Qed.

Lemma hi_byte_range (v : Z) : 0 <= Z.shiftr (Z.land v 0xFF00) 8 <= 255.
Proof.
  rewrite Z.shiftr_land. change (Z.shiftr 0xFF00 8) with 0xFF.
  apply land_byte.
Qed.

Lemma shiftr8_small (x : Z) : 0 <= x <= 255 -> Z.shiftr x 8 = 0.
Proof.
  intros Hx. rewrite Z.shiftr_div_pow2 by lia. apply Z.div_small.
  change (2 ^ 8) with 256. lia.
Qed.

Lemma byte_bits_high (x n : Z) :
  0 <= x <= 255 -> 8 <= n -> Z.testbit x n = false.
Proof.
  intros Hx Hn.
  rewrite <- (Z.mod_small x (2 ^ 8)) by (change (2 ^ 8) with 256; lia).
  apply Z.mod_pow2_bits_high. lia.
Qed.

Lemma land_byte_bits (x n : Z) :
  0 <= n -> Z.testbit (Z.land x 0xFF) n = Z.testbit x n && (n <? 8).
Proof.
  intros Hn. change 0xFF with (Z.ones 8).
  rewrite Z.land_spec, Z.testbit_ones_nonneg by lia. reflexivity.
Qed.

Lemma pack_bits (r g b n : Z) :
  0 <= n ->
  Z.testbit (pack r g b) n
  = Z.testbit r (n - 16) || Z.testbit g (n - 8) || Z.testbit b n.
Proof.
  intros Hn. unfold pack.
  now rewrite !Z.lor_spec, !Z.shiftl_spec by lia.
Qed.

Lemma pack_red (r g b : Z) :
  0 <= r <= 255 -> 0 <= g <= 255 -> 0 <= b <= 255 ->
  Z.land (Z.shiftr (pack r g b) 16) 0xFF = r.
Proof.
  intros Hr Hg Hb. apply Z.bits_inj'. intros n Hn.
  rewrite land_byte_bits, Z.shiftr_spec, pack_bits by lia.
  replace (n + 16 - 16) with n by lia.
  rewrite (byte_bits_high g (n + 16 - 8)), (byte_bits_high b (n + 16)) by lia.
  rewrite !orb_false_r.
  destruct (Z.ltb_spec n 8); [apply andb_true_r|].
  rewrite andb_false_r. symmetry. apply byte_bits_high; lia.
Qed.

Lemma pack_green (r g b : Z) :
  0 <= r <= 255 -> 0 <= g <= 255 -> 0 <= b <= 255 ->
  Z.land (Z.shiftr (pack r g b) 8) 0xFF = g.
Proof.
  intros Hr Hg Hb. apply Z.bits_inj'. intros n Hn.
  rewrite land_byte_bits, Z.shiftr_spec, pack_bits by lia.
  replace (n + 8 - 8) with n by lia.
  destruct (Z.ltb_spec n 8).
  - rewrite (Z.testbit_neg_r r (n + 8 - 16)) by lia.
    rewrite (byte_bits_high b (n + 8)) by lia.
    now rewrite orb_false_l, orb_false_r, andb_true_r.
  - rewrite andb_false_r. symmetry. apply byte_bits_high; lia.
Qed.

Lemma pack_blue (r g b : Z) :
  0 <= r <= 255 -> 0 <= g <= 255 -> 0 <= b <= 255 ->
  Z.land (pack r g b) 0xFF = b.
Proof.
  intros Hr Hg Hb. apply Z.bits_inj'. intros n Hn.
  rewrite land_byte_bits, pack_bits by lia.
  destruct (Z.ltb_spec n 8).
  - rewrite (Z.testbit_neg_r r (n - 16)), (Z.testbit_neg_r g (n - 8)) by lia.
    now rewrite andb_true_r.
  - rewrite andb_false_r. symmetry. apply byte_bits_high; lia.
Qed.

(** Only the low 24 bits of an int reach a color byte. *)
Lemma low24_byte (c k : Z) :
  0 <= k <= 16 ->
  Z.land (Z.shiftr (c mod 2 ^ 24) k) 0xFF = Z.land (Z.shiftr c k) 0xFF.
Proof.
  intros Hk. apply Z.bits_inj'. intros n Hn.
  rewrite !land_byte_bits, !Z.shiftr_spec by lia.
  destruct (Z.ltb_spec n 8).
  - now rewrite Z.mod_pow2_bits_low by lia.
  - now rewrite !andb_false_r.
Qed.

Lemma range_test_false (v lo hi : Z) :
  lo <= v <= hi -> (v <? lo) || (v >? hi) = false.
Proof. intros H. apply orb_false_iff. split; lia. Qed.

Lemma range_test_true (v lo hi : Z) :
  v < lo \/ hi < v -> (v <? lo) || (v >? hi) = true.
Proof. intros H. apply orb_true_iff. lia. Qed.

(** ** Rounding *)

Lemma round_half_even_bounds (lo hi : Z) (q : Q) :
  (inject_Z lo <= q)%Q -> (q <= inject_Z hi)%Q ->
  lo <= round_half_even q <= hi.
Proof.
  intros Hlo Hhi. unfold round_half_even.
  pose proof (Qfloor_resp_le _ _ Hlo) as Hf1.
  pose proof (Qfloor_resp_le _ _ Hhi) as Hf2.
  rewrite Qfloor_Z in Hf1, Hf2.
  assert (Hup : (1 # 2 <= q - inject_Z (Qfloor q))%Q -> Qfloor q + 1 <= hi).
  { intros Hhalf.
    destruct (Z.eq_dec (Qfloor q) hi) as [E | NE]; [|lia].
    rewrite E in Hhalf. lra. }
  destruct (Qcompare_spec (q - inject_Z (Qfloor q)) (1 # 2)) as [E | L | G].
  - destruct (Z.even (Qfloor q)); [lia|].
    split; [lia|]. apply Hup. rewrite E. apply Qle_refl.
  - lia.
  - split; [lia|]. apply Hup. apply Qlt_le_weak. exact G.
Qed.

(** The binary formats are float formats. *)
Lemma Qlog2_small (q : Q) :
  (inject_Z (-65536) <= q)%Q -> (q <= inject_Z 65536)%Q -> Qlog2 q <= 16.
Proof.
  intros Hlo Hhi. unfold Qlog2.
  set (n := Z.abs (Qnum q)). set (d := Zpos (Qden q)).
  assert (Hn : n <= 65536 * d).
  { unfold Qle in Hlo, Hhi. cbn [Qnum Qden inject_Z] in Hlo, Hhi.
    subst n d. lia. }
  assert (Hl : Z.log2 n - Z.log2 d <= 16).
  { destruct (Z.eq_dec n 0) as [Hnz | Hnz].
    - rewrite Hnz. change (Z.log2 0) with 0.
      pose proof (Z.log2_nonneg d). lia.
    - pose proof (Z.log2_le_mono n (d * 2 ^ 16)) as Hm.
      rewrite Z.log2_mul_pow2 in Hm by (subst d; lia).
      change (2 ^ 16) with 65536 in Hm. lia. }
  destruct (0 <=? Z.log2 n - Z.log2 d);
    [destruct (d * 2 ^ (Z.log2 n - Z.log2 d) <=? n)
    | destruct (d <=? n * 2 ^ (- (Z.log2 n - Z.log2 d)))]; lia.
Qed.

Lemma Qpower_2_nonneg (k : Z) : 0 <= k -> Qpower 2 k == inject_Z (2 ^ k).
Proof.
  intros Hk. change 2%Q with (inject_Z 2). now rewrite Zpower_Qpower.
Qed.

Lemma round_to_interval (p : Z) (Hp : 18 <= p) (lo hi : Z) (q : Q) :
  -65536 <= lo -> hi <= 65536 ->
  (inject_Z lo <= q)%Q -> (q <= inject_Z hi)%Q ->
  exists r,
    round_to p q = FFin r /\ (inject_Z lo <= r)%Q /\ (r <= inject_Z hi)%Q.
Proof.
  intros Hlo Hhi Hq1 Hq2. unfold round_to.
  destruct (Qeq_bool q 0) eqn:Hz.
  - apply Qeq_bool_eq in Hz. exists 0%Q. split; [reflexivity|].
    rewrite <- Hz. auto.
  - assert (Hlog : Qlog2 q <= 16).
    { apply Qlog2_small.
      - apply Qle_trans with (inject_Z lo); [|exact Hq1].
        rewrite <- Zle_Qle. lia.
      - apply Qle_trans with (inject_Z hi); [exact Hq2|].
        rewrite <- Zle_Qle. lia. }
    set (e := Qlog2 q - (p - 1)).
    assert (He : 0 <= - e) by (subst e; lia).
    eexists. split; [reflexivity|].
    assert (Hpos : 0 < 2 ^ (- e)) by (apply Z.pow_pos_nonneg; lia).
    assert (Hpow : Qpower 2 e == / inject_Z (2 ^ (- e))).
    { rewrite <- (Z.opp_involutive e) at 1.
      rewrite Qpower_opp. now rewrite Qpower_2_nonneg. }
    assert (Hposq : (0 < inject_Z (2 ^ (- e)))%Q).
    { change 0%Q with (inject_Z 0). now rewrite <- Zlt_Qlt. }
    destruct (round_half_even_bounds (lo * 2 ^ (- e)) (hi * 2 ^ (- e))
                (q * Qpower 2 (- e))) as [Hb1 Hb2].
    + rewrite Qpower_2_nonneg, inject_Z_mult by exact He.
      apply Qmult_le_compat_r; [exact Hq1 | now apply Qlt_le_weak].
    + rewrite Qpower_2_nonneg, inject_Z_mult by exact He.
      apply Qmult_le_compat_r; [exact Hq2 | now apply Qlt_le_weak].
    + rewrite Hpow. split.
      * apply Qle_shift_div_l; [exact Hposq|].
        rewrite <- inject_Z_mult, <- Zle_Qle. exact Hb1.
      * apply Qle_shift_div_r; [exact Hposq|].
        rewrite <- inject_Z_mult, <- Zle_Qle. exact Hb2.
Qed.

Definition binary_format (p : Z) (Hp : 18 <= p) : FloatFormat :=
  {| fround := round_to p; fround_interval := round_to_interval p Hp |}.

Lemma mantissa_53 : 18 <= 53.
Proof. lia. Qed.

(** CPython's float. *)
Definition binary64 : FloatFormat := binary_format 53 mantissa_53.

(** ** Running the monad *)

Lemma bind_ret_l {S A B : Type} (a : A) (k : A -> ST S B) :
  (x <- ret a;; k x) = k a.
Proof. reflexivity. Qed.

Lemma bind_lift_Ret {S A B : Type} (a : A) (k : A -> ST S B) :
  (x <- lift (Ret a);; k x) = k a.
Proof. reflexivity. Qed.

Lemma bind_run {S A B : Type} (m : ST S A) (k : A -> ST S B) (s : S) :
  (x <- m;; k x) s
  = match m s with
    | (Ret a, s') => k a s'
    | (Raise e, s') => (Raise e, s')
    end.
Proof. reflexivity. Qed.

Lemma with_device_write (buf : list Z) (b : bus) :
  with_device (i2c_write buf) b = (Ret tt, sent b buf).
Proof. reflexivity. Qed.

Lemma snd_bind_ret {S A B : Type} (m : ST S A) (f : A -> B) (s : S) :
  snd ((x <- m;; ret (f x)) s) = snd (m s).
Proof. unfold bind, ret. now destruct (m s) as [[a|e] s']. Qed.

Lemma snd_bind_pure {S A B : Type} (m : ST S A) (k : A -> ST S B) (s : S) :
  (forall a s', snd (k a s') = s') ->
  snd ((x <- m;; k x) s) = snd (m s).
Proof.
  intros Hk. rewrite bind_run. destruct (m s) as [[a|e] s']; [|reflexivity].
  apply Hk.
Qed.

Create HintDb bytes.
#[local] Hint Resolve land_byte byte_val_range hi_byte_range : bytes.

Ltac byte_side :=
  first [ solve [auto with bytes]
        | cbn [List.length firstn skipn app]; lia ].

Ltac py_step :=
  first [ rewrite bind_ret_l
        | rewrite bind_lift_Ret
        | rewrite store_ok by byte_side ];
  cbv beta; cbn [firstn skipn app Nat.add List.length].

Ltac run_stores :=
  unfold attr, setbyte; cbv zeta; cbn [bytearray repeat];
  repeat py_step; rewrite ?with_device_write.

Lemma selectors_after (b : bus) (tx : list op) (rest : list byte) :
  selectors (after b tx rest) = selectors b ++ flat_map op_selector tx.
Proof.
  unfold selectors, after. cbn [txs].
  rewrite flat_map_app. cbn [flat_map]. now rewrite app_nil_r.
Qed.

Lemma selectors_sent (b : bus) (s : Z) (data : list Z) :
  selectors (sent b (s :: data)) = selectors b ++ [s].
Proof. unfold sent. now rewrite selectors_after. Qed.

(** A read transaction: the selector write, then [readinto]. *)
Lemma read_run (r : Z) (len : nat) (b : bus) :
  with_device (i2c_write [r];;; i2c_readinto len) b
  = if (len <=? List.length (pending b))%nat
    then (Ret (map byte_val (firstn len (pending b))),
          after b [Write [r]; ReadInto len] (skipn len (pending b)))
    else (Raise OSError, after b [Write [r]; ReadInto len] []).
Proof.
  unfold with_device, bind, i2c_write, i2c_readinto. cbn [ops rx].
  now destruct (len <=? List.length (pending b))%nat.
Qed.

Lemma read_selectors (r : Z) (len : nat) (b : bus) :
  selectors (snd (with_device (i2c_write [r];;; i2c_readinto len) b))
  = selectors b ++ [r].
Proof.
  rewrite read_run.
  destruct (len <=? List.length (pending b))%nat; cbn [snd];
    now rewrite selectors_after.
Qed.

(** ** The register map *)

Lemma channel_cases (c : Z) :
  0 <= c <= 5 -> c = 0 \/ c = 1 \/ c = 2 \/ c = 3 \/ c = 4 \/ c = 5.
Proof. lia. Qed.

Lemma base_reg_ok (channel : pyval) (c : Z) :
  as_int channel = Some c -> 0 <= c <= 5 ->
  base_reg channel = Ret (base c).
Proof.
  intros Hc Hr. unfold base_reg. rewrite Hc.
  destruct (channel_cases c Hr) as [-> | [-> | [-> | [-> | [-> | ->]]]]];
    reflexivity.
Qed.

Lemma lor_code_byte (c k : Z) :
  0 <= c <= 5 -> 0 <= k <= 15 -> 0 <= Z.lor (base c) k <= 255.
Proof.
  intros Hc Hk.
  assert (Hb : 0 <= base c <= 255).
  { destruct (channel_cases c Hc) as [-> | [-> | [-> | [-> | [-> | ->]]]]];
      vm_compute; split; discriminate. }
  split.
  - apply Z.lor_nonneg. lia.
  - assert (H : Z.lor (base c) k < 2 ^ 8); [|change (2 ^ 8) with 256 in H; lia].
    destruct (Z.eq_dec (Z.lor (base c) k) 0) as [-> | NZ]; [reflexivity|].
    apply Z.log2_lt_pow2; [pose proof (Z.lor_nonneg (base c) k); lia|].
    rewrite Z.log2_lor by lia.
    apply Z.max_lub_lt.
    + destruct (Z.eq_dec (base c) 0) as [-> | NB]; [reflexivity|].
      apply Z.log2_lt_pow2; [lia|]. change (2 ^ 8) with 256. lia.
    + destruct (Z.eq_dec k 0) as [-> | NK]; [reflexivity|].
      apply Z.log2_lt_pow2; [lia|]. change (2 ^ 8) with 256. lia.
Qed.

Lemma selector_byte (f : subfunction) (c io : Z) :
  0 <= c <= 5 -> 0 <= selector f c io <= 255.
Proof.
  intros Hc. unfold selector. apply lor_code_byte; [exact Hc|].
  destruct f; cbn [code]; try destruct (io =? 0); lia.
Qed.

#[local] Hint Resolve selector_byte : bytes.

(** What [_PbHubChannel.__init__] builds on a channel of the hub. *)
Lemma init_digital_input (c io : Z) :
  0 <= c <= 5 ->
  PbHubChannel_init PbHubDigitalInput (PyInt c) (PyInt io)
  = Ret {| klass := PbHubDigitalInput; _channel := PyInt c; _io := PyInt io;
           _reg_num := Some (selector DigitalIn c io);
           _reg_num_angle := None; _reg_num_pulse := None |}.
Proof.
  intros Hc.
  destruct (channel_cases c Hc) as [-> | [-> | [-> | [-> | [-> | ->]]]]];
    reflexivity.
Qed.

Lemma init_digital_output (c io : Z) :
  0 <= c <= 5 ->
  PbHubChannel_init PbHubDigitalOutput (PyInt c) (PyInt io)
  = Ret {| klass := PbHubDigitalOutput; _channel := PyInt c; _io := PyInt io;
           _reg_num := Some (selector DigitalOut c io);
           _reg_num_angle := None; _reg_num_pulse := None |}.
Proof.
  intros Hc.
  destruct (channel_cases c Hc) as [-> | [-> | [-> | [-> | [-> | ->]]]]];
    reflexivity.
Qed.

Lemma init_analog_input (c : Z) :
  0 <= c <= 5 ->
  PbHubAnalogInput_init (PyInt c)
  = Ret {| klass := PbHubAnalogInput; _channel := PyInt c; _io := PyInt 0;
           _reg_num := Some (selector AnalogIn c 0);
           _reg_num_angle := None; _reg_num_pulse := None |}.
Proof.
  intros Hc.
  destruct (channel_cases c Hc) as [-> | [-> | [-> | [-> | [-> | ->]]]]];
    reflexivity.
Qed.

Lemma init_pwm_output (c io : Z) :
  0 <= c <= 5 ->
  PbHubChannel_init PbHubPwmOutput (PyInt c) (PyInt io)
  = Ret {| klass := PbHubPwmOutput; _channel := PyInt c; _io := PyInt io;
           _reg_num := Some (selector PwmOut c io);
           _reg_num_angle := None; _reg_num_pulse := None |}.
Proof.
  intros Hc.
  destruct (channel_cases c Hc) as [-> | [-> | [-> | [-> | [-> | ->]]]]];
    reflexivity.
Qed.

Lemma init_servo (c io : Z) :
  0 <= c <= 5 ->
  PbHubChannel_init PbHubServo (PyInt c) (PyInt io)
  = Ret {| klass := PbHubServo; _channel := PyInt c; _io := PyInt io;
           _reg_num := None;
           _reg_num_angle := Some (selector ServoAngle c io);
           _reg_num_pulse := Some (selector ServoPulse c io) |}.
Proof.
  intros Hc.
  destruct (channel_cases c Hc) as [-> | [-> | [-> | [-> | [-> | ->]]]]];
    reflexivity.
Qed.

(** *** The selector each operation puts on the wire *)

Section ChannelOperations.

Variables (self : PbHubChannel) (r : Z).
Hypothesis r_byte : 0 <= r <= 255.

Lemma DigitalInput_value_selector (b : bus) :
  _reg_num self = Some r ->
  selectors (snd (DigitalInput_value self b)) = selectors b ++ [r].
Proof.
  intros Hr. unfold DigitalInput_value. rewrite Hr.
  run_stores. rewrite snd_bind_ret. apply read_selectors.
Qed.

Lemma DigitalOutput_value_selector (b : bus) :
  _reg_num self = Some r ->
  selectors (snd (DigitalOutput_value self b)) = selectors b ++ [r].
Proof.
  intros Hr. unfold DigitalOutput_value. rewrite Hr.
  run_stores. rewrite snd_bind_ret. apply read_selectors.
Qed.

Lemma DigitalOutput_value_set_run (value : pyval) (b : bus) :
  _reg_num self = Some r ->
  DigitalOutput_value_set self value b
  = (Ret tt, sent b [r; if py_truthy value then 1 else 0]).
Proof.
  intros Hr. unfold DigitalOutput_value_set. rewrite Hr.
  destruct (py_truthy value); now run_stores.
Qed.

Lemma AnalogInput_value_selector (b : bus) :
  _reg_num self = Some r ->
  selectors (snd (AnalogInput_value self b)) = selectors b ++ [r].
Proof.
  intros Hr. unfold AnalogInput_value. rewrite Hr.
  run_stores. rewrite snd_bind_ret. apply read_selectors.
Qed.

Lemma PwmOutput_value_selector (b : bus) :
  _reg_num self = Some r ->
  selectors (snd (PwmOutput_value self b)) = selectors b ++ [r].
Proof.
  intros Hr. unfold PwmOutput_value. rewrite Hr.
  run_stores. rewrite snd_bind_ret. apply read_selectors.
Qed.

Lemma PwmOutput_value_set_run (value : pyval) (v : Z) (b : bus) :
  _reg_num self = Some r -> as_int value = Some v -> 0 <= v <= 255 ->
  PwmOutput_value_set self value b = (Ret tt, sent b [r; v]).
Proof.
  intros Hr Hv Hrange. unfold PwmOutput_value_set. rewrite Hv, Hr.
  rewrite range_test_false by lia.
  run_stores. now rewrite land_byte_id.
Qed.

Lemma Servo_angle_selector (b : bus) :
  _reg_num_angle self = Some r ->
  selectors (snd (Servo_angle self b)) = selectors b ++ [r].
Proof.
  intros Hr. unfold Servo_angle. rewrite Hr.
  run_stores. rewrite snd_bind_ret. apply read_selectors.
Qed.

Lemma Servo_angle_set_run (angle : pyval) (v : Z) (b : bus) :
  _reg_num_angle self = Some r -> as_int angle = Some v -> 0 <= v <= 180 ->
  Servo_angle_set self angle b = (Ret tt, sent b [r; v]).
Proof.
  intros Hr Hv Hrange. unfold Servo_angle_set. rewrite Hv, Hr.
  rewrite range_test_false by lia.
  now run_stores.
Qed.

Lemma Servo_pulse_selector (b : bus) :
  _reg_num_pulse self = Some r ->
  selectors (snd (Servo_pulse self b)) = selectors b ++ [r].
Proof.
  intros Hr. unfold Servo_pulse. rewrite Hr.
  run_stores. rewrite snd_bind_ret. apply read_selectors.
Qed.

Lemma Servo_pulse_set_run (pulse_width : pyval) (v : Z) (b : bus) :
  _reg_num_pulse self = Some r ->
  as_int pulse_width = Some v -> 500 <= v <= 2500 ->
  Servo_pulse_set self pulse_width b
  = (Ret tt, sent b [r; Z.land v 0xFF; Z.shiftr (Z.land v 0xFF00) 8]).
Proof.
  intros Hr Hv Hrange. unfold Servo_pulse_set. rewrite Hv, Hr.
  rewrite range_test_false by lia.
  now run_stores.
Qed.

End ChannelOperations.

(** ** The LED strip *)

Lemma constructed_regs (self : NeoPixels.t) :
  constructed self ->
  exists c, 0 <= c <= 5 /\
    NeoPixels._reg_num_num_leds self = selector LedCount c 0 /\
    NeoPixels._reg_num_brightness self = selector LedBrightness c 0 /\
    NeoPixels._reg_num_one_led_color self = selector LedPixel c 0 /\
    NeoPixels._reg_num_range_led_color self = selector LedRange c 0.
Proof.
  intros (channel & c & Hi & Hc & Hs). exists c. split; [exact Hc|].
  unfold NeoPixels._set_reg in Hs. rewrite (base_reg_ok _ _ Hi Hc) in Hs.
  injection Hs as <-. repeat split.
Qed.

Lemma strip0_constructed : constructed strip0.
Proof. exists (PyInt 0), 0. repeat split; lia. Qed.

Lemma list_index_0 {A : Type} (a : A) (l : list A) :
  list_index (a :: l) 0 = Ret a.
Proof.
  unfold list_index. cbn [Z.ltb Z.compare List.length].
  destruct (Z.leb_spec (Z.of_nat (S (List.length l))) 0); [lia|].
  reflexivity.
Qed.

Lemma list_index_1 {A : Type} (a0 a1 : A) (l : list A) :
  list_index (a0 :: a1 :: l) 1 = Ret a1.
Proof.
  unfold list_index. cbn [Z.ltb Z.compare List.length].
  destruct (Z.leb_spec (Z.of_nat (S (S (List.length l)))) 1); [lia|].
  reflexivity.
Qed.

Lemma list_index_2 {A : Type} (a0 a1 a2 : A) (l : list A) :
  list_index (a0 :: a1 :: a2 :: l) 2 = Ret a2.
Proof.
  unfold list_index. cbn [Z.ltb Z.compare List.length].
  destruct (Z.leb_spec (Z.of_nat (S (S (S (List.length l))))) 2); [lia|].
  reflexivity.
Qed.

(** The color stores on a buffer whose last three bytes are still zero. *)
Lemma store_color_run {T : Type} (color : pyval) (r g bl : Z)
  (pre : list Z) (s : T) :
  rgb_of color = Some (r, g, bl) ->
  NeoPixels.store_color (pre ++ [0; 0; 0]) (List.length pre) color s
  = (Ret (pre ++ [r; g; bl]), s).
Proof.
  intros Hrgb.
  assert (St : forall (x y z v : Z) (i : nat), (i < 3)%nat -> 0 <= v <= 255 ->
            store (pre ++ [x; y; z]) (List.length pre + i) v
            = Ret (pre ++ firstn i [x; y; z] ++ v :: skipn (S i) [x; y; z])).
  { intros x y z v i Hi Hv. rewrite store_ok.
    - rewrite firstn_app, skipn_app, firstn_all2, skipn_all2 by lia.
      replace (List.length pre + i - List.length pre)%nat with i by lia.
      replace (S (List.length pre + i) - List.length pre)%nat with (S i) by lia.
      now rewrite <- app_assoc.
    - rewrite length_app. cbn [List.length]. lia.
    - exact Hv. }
  pose proof (fun x y z v Hv => St x y z v 0%nat (Nat.lt_0_succ 2) Hv) as St0.
  rewrite Nat.add_0_r in St0.
  unfold rgb_of in Hrgb. unfold NeoPixels.store_color.
  destruct (as_int color) as [c|] eqn:Hc.
  - injection Hrgb as <- <- <-. unfold setbyte.
    rewrite St0 by apply land_byte. rewrite bind_lift_Ret.
    cbn [firstn skipn app].
    rewrite St by (auto using land_byte). rewrite bind_lift_Ret.
    cbn [firstn skipn app]. unfold lift.
    now rewrite St by (auto using land_byte).
  - destruct color as [ | | | | | l]; try discriminate.
    destruct l as [|c0 [|c1 [|c2 rest]]]; try discriminate.
    destruct (as_int c0) as [r0|] eqn:H0; try discriminate.
    destruct (as_int c1) as [g0|] eqn:H1; try discriminate.
    destruct (as_int c2) as [b0|] eqn:H2; try discriminate.
    injection Hrgb as <- <- <-.
    unfold py_getitem, setbyte.
    rewrite list_index_0, bind_lift_Ret. unfold py_and at 1.
    rewrite H0, bind_lift_Ret, St0, bind_lift_Ret by apply land_byte.
    cbn [firstn skipn app].
    rewrite list_index_1, bind_lift_Ret. unfold py_and at 1.
    rewrite H1, bind_lift_Ret, St, bind_lift_Ret by (auto using land_byte).
    cbn [firstn skipn app].
    rewrite list_index_2, bind_lift_Ret. unfold py_and at 1.
    rewrite H2, bind_lift_Ret. unfold lift.
    now rewrite St by (auto using land_byte).
Qed.

Section StripOperations.

Variable self : NeoPixels.t.
Hypothesis self_constructed : constructed self.

Lemma num_leds_reg_byte : 0 <= NeoPixels._reg_num_num_leds self <= 255.
Proof.
  destruct (constructed_regs self self_constructed) as (c & Hc & -> & _).
  now apply selector_byte.
Qed.

Lemma brightness_reg_byte : 0 <= NeoPixels._reg_num_brightness self <= 255.
Proof.
  destruct (constructed_regs self self_constructed)
    as (c & Hc & _ & -> & _).
  now apply selector_byte.
Qed.

Lemma one_led_reg_byte : 0 <= NeoPixels._reg_num_one_led_color self <= 255.
Proof.
  destruct (constructed_regs self self_constructed)
    as (c & Hc & _ & _ & -> & _).
  now apply selector_byte.
Qed.

Lemma range_reg_byte : 0 <= NeoPixels._reg_num_range_led_color self <= 255.
Proof.
  destruct (constructed_regs self self_constructed)
    as (c & Hc & _ & _ & _ & ->).
  now apply selector_byte.
Qed.

Hint Resolve num_leds_reg_byte brightness_reg_byte one_led_reg_byte
  range_reg_byte : bytes.

(** The led-count getter: one selector write, one byte read back. *)
Lemma number_of_leds_run (t : list (list op)) (x : byte) (rest : list byte) :
  NeoPixels.number_of_leds self {| txs := t; pending := x :: rest |}
  = (Ret (PyInt (byte_val x)),
     {| txs := t ++ [[Write [NeoPixels._reg_num_num_leds self]; ReadInto 1]];
        pending := rest |}).
Proof.
  unfold NeoPixels.number_of_leds. run_stores.
  now rewrite bind_run, read_run.
Qed.

Lemma number_of_leds_set_run (number : pyval) (n : Z) (b : bus) :
  as_int number = Some n -> 0 <= n <= 74 ->
  NeoPixels.number_of_leds_set self number b
  = (Ret tt, sent b [NeoPixels._reg_num_num_leds self; Z.land n 0xFF;
                     Z.shiftr n 8]).
Proof.
  intros Hn Hr. unfold NeoPixels.number_of_leds_set. rewrite Hn.
  rewrite range_test_false by (unfold _MAX_NUM_OF_LED; lia).
  run_stores. now rewrite (shiftr8_small n) by lia.
Qed.

Lemma number_of_leds_set_rejects (number : pyval) (b : bus) :
  as_int number = None \/
  (exists n, as_int number = Some n /\ (n < 0 \/ 74 < n)) ->
  NeoPixels.number_of_leds_set self number b = (Raise ValueError, b).
Proof.
  intros [Hn | (n & Hn & Hr)]; unfold NeoPixels.number_of_leds_set;
    rewrite Hn; [reflexivity|].
  now rewrite range_test_true by (unfold _MAX_NUM_OF_LED; lia).
Qed.

(** A single pixel: one write of six bytes. *)
Lemma setitem_index_run (index color : pyval) (i r g bl : Z) (b : bus) :
  as_int index = Some i -> 0 <= i <= 74 ->
  rgb_of color = Some (r, g, bl) ->
  NeoPixels.__setitem__ self (Index index) color b
  = (Ret tt, sent b [NeoPixels._reg_num_one_led_color self;
                     Z.land i 0xFF; Z.shiftr i 8; r; g; bl]).
Proof.
  intros Hi Hr Hrgb. unfold NeoPixels.__setitem__. rewrite Hi.
  rewrite range_test_false by (unfold _MAX_NUM_OF_LED; lia).
  run_stores. rewrite (shiftr8_small i) by lia.
  change (Z.land 0 255) with 0. rewrite bind_run.
  pose proof (store_color_run color r g bl
                [NeoPixels._reg_num_one_led_color self; Z.land i 255; 0]
                b Hrgb) as Hc.
  cbn [app List.length] in Hc. now rewrite Hc.
Qed.

Lemma setitem_index_rejects (index color : pyval) (b : bus) :
  as_int index = None \/
  (exists i, as_int index = Some i /\ (i < 0 \/ 74 < i)) ->
  NeoPixels.__setitem__ self (Index index) color b = (Raise ValueError, b).
Proof.
  intros [Hi | (i & Hi & Hr)]; unfold NeoPixels.__setitem__;
    rewrite Hi; [reflexivity|].
  now rewrite range_test_true by (unfold _MAX_NUM_OF_LED; lia).
Qed.

(** A range of pixels: one write of eight bytes. *)
Lemma setitem_slice_run (start stop : Z) (step : option Z) (color : pyval)
  (r g bl : Z) (b : bus) :
  0 <= start -> start < stop -> stop <= 74 ->
  rgb_of color = Some (r, g, bl) ->
  NeoPixels.__setitem__ self (Slice (Some start) (Some stop) step) color b
  = (Ret tt, sent b [NeoPixels._reg_num_range_led_color self;
                     Z.land start 0xFF; Z.shiftr start 8;
                     Z.land (stop - start) 0xFF; Z.shiftr (stop - start) 8;
                     r; g; bl]).
Proof.
  intros H0 Hlt H74 Hrgb. unfold NeoPixels.__setitem__.
  rewrite !range_test_false by (unfold _MAX_NUM_OF_LED; lia).
  destruct (Z.ltb_spec stop start); [lia|].
  destruct (Z.eqb_spec (stop - start) 0); [lia|].
  run_stores.
  rewrite (shiftr8_small start), (shiftr8_small (stop - start)) by lia.
  change (Z.land 0 255) with 0. rewrite bind_run.
  pose proof (store_color_run color r g bl
                [NeoPixels._reg_num_range_led_color self; Z.land start 255;
                 0; Z.land (stop - start) 255; 0] b Hrgb) as Hc.
  cbn [app List.length] in Hc. now rewrite Hc.
Qed.

Lemma setitem_slice_empty (start : Z) (step : option Z) (color : pyval)
  (b : bus) :
  0 <= start <= 74 ->
  NeoPixels.__setitem__ self (Slice (Some start) (Some start) step) color b
  = (Ret tt, b).
Proof.
  intros Hs. unfold NeoPixels.__setitem__.
  rewrite !range_test_false by (unfold _MAX_NUM_OF_LED; lia).
  rewrite Z.ltb_irrefl, Z.sub_diag. reflexivity.
Qed.

Lemma setitem_slice_rejects (start stop : Z) (step : option Z)
  (color : pyval) (b : bus) :
  start < 0 \/ 74 < start \/ stop < 0 \/ 74 < stop \/ stop < start ->
  NeoPixels.__setitem__ self (Slice (Some start) (Some stop) step) color b
  = (Raise ValueError, b).
Proof.
  intros H. unfold NeoPixels.__setitem__, _MAX_NUM_OF_LED.
  destruct ((start <? 0) || (start >? 74)) eqn:E1; [reflexivity|].
  destruct ((stop <? 0) || (stop >? 74)) eqn:E2; [reflexivity|].
  apply orb_false_iff in E1, E2.
  destruct (Z.ltb_spec stop start); [reflexivity|]. lia.
Qed.

End StripOperations.

(** [fill] reads the count and hands it to the range write. *)
Lemma fill_run (self : NeoPixels.t) (color : pyval) (t : list (list op))
  (x : byte) (rest : list byte) :
  constructed self ->
  NeoPixels.fill self color {| txs := t; pending := x :: rest |}
  = NeoPixels.__setitem__ self (Slice (Some 0) (Some (byte_val x)) None) color
      {| txs := t ++ [[Write [NeoPixels._reg_num_num_leds self]; ReadInto 1]];
         pending := rest |}.
Proof.
  intros Hself. unfold NeoPixels.fill.
  now rewrite bind_run, number_of_leds_run.
Qed.

(** ** Brightness *)

Section Brightness.

Context {FF : FloatFormat}.

Lemma in_unit_bounds (x : pyfloat) :
  in_unit x = true -> exists q, x = FFin q /\ (0 <= q)%Q /\ (q <= 1)%Q.
Proof.
  destruct x as [ | s | q]; try discriminate. cbn [in_unit].
  rewrite andb_true_iff, !Qle_bool_iff. eauto.
Qed.

Lemma in_unit_test (x : pyfloat) :
  float_lt x (FFin 0) || float_lt (FFin 1) x = false ->
  x = FNan \/ in_unit x = true.
Proof.
  destruct x as [ | [|] | q]; cbn [float_lt in_unit]; auto; try discriminate.
  rewrite orb_false_iff, !negb_false_iff. intros [-> ->]. now right.
Qed.

Lemma in_unit_passes (x : pyfloat) :
  in_unit x = true ->
  float_lt x (FFin 0) || float_lt (FFin 1) x = false.
Proof.
  destruct x as [ | s | q]; try discriminate. cbn [float_lt in_unit].
  rewrite andb_true_iff. intros [-> ->]. reflexivity.
Qed.

(** [round(255 * value)] is a byte for every number from 0.0 to 1.0. *)
Lemma brightness_byte_ok (value : pyval) (x : pyfloat) :
  as_number value = Some x -> in_unit x = true ->
  exists k, brightness_byte value = Ret k /\ 0 <= k <= 255.
Proof.
  intros Hnum Hunit.
  destruct (in_unit_bounds x Hunit) as (q & -> & H0 & H1).
  assert (Hint : forall z, FFin (inject_Z z) = FFin q ->
            exists k, Ret (255 * z) = Ret k /\ 0 <= k <= 255).
  { intros z [= <-]. exists (255 * z). split; [reflexivity|].
    change 0%Q with (inject_Z 0) in H0. change 1%Q with (inject_Z 1) in H1.
    rewrite <- Zle_Qle in H0, H1. lia. }
  destruct value as [ | bb | z | f | s | l]; try discriminate.
  - cbn in Hnum. apply (Hint _ (f_equal (fun o => match o with
                                              | Some f => f
                                              | None => FNan
                                              end) Hnum)).
  - cbn in Hnum. apply (Hint _ (f_equal (fun o => match o with
                                              | Some f => f
                                              | None => FNan
                                              end) Hnum)).
  - cbn in Hnum. injection Hnum as ->.
    unfold brightness_byte. cbn [py_mul as_int as_number option_map float_mul].
    destruct (fround_interval 0 255 (inject_Z 255 * q)) as (r & Hr & Hr0 & Hr1);
      try lia.
    + change (inject_Z 0) with 0%Q. change (inject_Z 255) with 255%Q. lra.
    + change (inject_Z 255) with 255%Q. lra.
    + rewrite Hr. cbn [py_round]. exists (round_half_even r).
      split; [reflexivity|]. now apply round_half_even_bounds.
Qed.

Variable self : NeoPixels.t.
Hypothesis self_constructed : constructed self.

Lemma brightness_set_run (value : pyval) (x : pyfloat) (k : Z) (b : bus) :
  as_number value = Some x -> in_unit x = true ->
  brightness_byte value = Ret k -> 0 <= k <= 255 ->
  NeoPixels.brightness_set self value b
  = (Ret tt, sent b [NeoPixels._reg_num_brightness self; k]).
Proof.
  intros Hnum Hunit Hk Hrange. unfold NeoPixels.brightness_set.
  rewrite Hnum, (in_unit_passes x Hunit).
  pose proof (brightness_reg_byte self self_constructed) as Hreg.
  unfold brightness_byte in Hk.
  destruct (py_mul (PyInt 255) value) as [p|e]; [|discriminate].
  run_stores. rewrite Hk. now run_stores.
Qed.

Lemma brightness_set_rejects (value : pyval) (b : bus) :
  as_number value = None \/
  (exists x, as_number value = Some x /\ in_unit x = false) ->
  NeoPixels.brightness_set self value b = (Raise ValueError, b).
Proof.
  pose proof (brightness_reg_byte self self_constructed) as Hreg.
  intros [Hnum | (x & Hnum & Hout)]; unfold NeoPixels.brightness_set;
    rewrite Hnum; [reflexivity|].
  destruct (float_lt x (FFin 0) || float_lt (FFin 1) x) eqn:Ht; [reflexivity|].
  destruct (in_unit_test x Ht) as [-> | Hin]; [|congruence].
  destruct value as [ | bb | z | f | s | l]; try discriminate.
  cbn in Hnum. injection Hnum as ->.
  now run_stores.
Qed.

(** The brightness getter: the led-count selector, one byte read back. *)
Lemma brightness_run (t : list (list op)) (x : byte) (rest : list byte) :
  exists r,
    fround (inject_Z (byte_val x) / 255) = FFin r /\
    NeoPixels.brightness self {| txs := t; pending := x :: rest |}
    = (Ret (PyFloat (fround (inject_Z (round_half_even (r * 100)) / 100))),
       {| txs := t ++ [[Write [NeoPixels._reg_num_num_leds self]; ReadInto 1]];
          pending := rest |}).
Proof.
  pose proof (num_leds_reg_byte self self_constructed) as Hreg.
  pose proof (byte_val_range x) as Hx.
  destruct (fround_interval 0 1 (inject_Z (byte_val x) / 255))
    as (r & Hr & _); try lia.
  - apply Qle_shift_div_l; [reflexivity|].
    rewrite Qmult_0_l. change 0%Q with (inject_Z 0).
    rewrite <- Zle_Qle. lia.
  - apply Qle_shift_div_r; [reflexivity|].
    change (inject_Z 1 * 255)%Q with (inject_Z 255).
    rewrite <- Zle_Qle. lia.
  - exists r. split; [exact Hr|].
    unfold NeoPixels.brightness. run_stores.
    rewrite bind_run, read_run. cbn [pending List.length Nat.leb firstn
      skipn map load nth after txs].
    unfold py_truediv. cbn [as_number as_int option_map float_div].
    change (Qeq_bool 255 0) with false. cbv iota.
    rewrite Hr. reflexivity.
Qed.

Lemma brightness_selector (b : bus) :
  selectors (snd (NeoPixels.brightness self b))
  = selectors b ++ [NeoPixels._reg_num_num_leds self].
Proof.
  pose proof (num_leds_reg_byte self self_constructed) as Hreg.
  unfold NeoPixels.brightness. run_stores.
  rewrite snd_bind_pure; [apply read_selectors|].
  intros buf s'. rewrite bind_run. unfold lift.
  now destruct (py_truediv (PyInt (load buf 0)) (PyFloat (FFin 255))).
Qed.

(** The constructor after its channel check. *)
Lemma init_run (channel number brightness : pyval) (c : Z) (b : bus) :
  as_int channel = Some c -> 0 <= c <= 5 ->
  NeoPixels._set_reg channel = Ret self ->
  NeoPixels.__init__ channel number brightness b
  = (NeoPixels.number_of_leds_set self number;;;
     NeoPixels.brightness_set self brightness;;;
     ret self) b.
Proof.
  intros Hc Hr Hs. unfold NeoPixels.__init__. rewrite Hc.
  rewrite range_test_false by lia. now rewrite Hs.
Qed.

End Brightness.

(** Every instance the constructor returns is [constructed]. *)
Lemma init_constructed {FF : FloatFormat}
  (channel number brightness : pyval) (b b' : bus) (self : NeoPixels.t) :
  NeoPixels.__init__ channel number brightness b = (Ret self, b') ->
  constructed self.
Proof.
  unfold NeoPixels.__init__.
  destruct (as_int channel) as [c|] eqn:Hc; [|discriminate].
  destruct ((c <? 0) || (c >? 5)) eqn:Hr; [discriminate|].
  apply orb_false_iff in Hr.
  destruct (NeoPixels._set_reg channel) as [s|e] eqn:Hs; [|discriminate].
  rewrite bind_lift_Ret, bind_run.
  destruct (NeoPixels.number_of_leds_set s number b) as [[[]|e1] b1];
    [|discriminate].
  rewrite bind_run.
  destruct (NeoPixels.brightness_set s brightness b1) as [[[]|e2] b2];
    [|discriminate].
  intros [= <- _]. exists channel, c. repeat split; try assumption; lia.
Qed.

Lemma set_reg_constructed (channel : pyval) (c : Z) :
  as_int channel = Some c -> 0 <= c <= 5 ->
  exists self, NeoPixels._set_reg channel = Ret self /\ constructed self.
Proof.
  intros Hc Hr. unfold NeoPixels._set_reg.
  rewrite (base_reg_ok _ _ Hc Hr). eexists. split; [reflexivity|].
  exists channel, c. repeat split; try lia; try assumption.
  unfold NeoPixels._set_reg. now rewrite (base_reg_ok _ _ Hc Hr).
Qed.

(** ** Channel endpoints: validation *)

(** The [channel] and [io] setters reject every value that is not an int
    of the range and leave the instance as it was. *)
Lemma channel_set_rejects (self : PbHubChannel) (value : pyval) :
  as_int value = None \/
  (exists v, as_int value = Some v /\ (v < 0 \/ 5 < v)) ->
  channel_set value self = (Raise ValueError, self).
Proof.
  intros [Hv | (v & Hv & Hr)]; unfold channel_set; rewrite Hv;
    [reflexivity|].
  now rewrite range_test_true by lia.
Qed.

Lemma io_set_rejects (self : PbHubChannel) (value : pyval) :
  as_int value = None \/
  (exists v, as_int value = Some v /\ (v < 0 \/ 1 < v)) ->
  io_set value self = (Raise ValueError, self).
Proof.
  intros [Hv | (v & Hv & Hr)]; unfold io_set; rewrite Hv; [reflexivity|].
  now rewrite range_test_true by lia.
Qed.

Ltac py_cbv :=
  cbv beta iota zeta delta
    [bind klass _channel _io _reg_num _reg_num_angle _reg_num_pulse
     set_channel set_io set_reg_num set_reg_num_angle set_reg_num_pulse].

Ltac py_cbv_in H :=
  cbv beta iota zeta delta
    [bind klass _channel _io _reg_num _reg_num_angle _reg_num_pulse
     set_channel set_io set_reg_num set_reg_num_angle set_reg_num_pulse] in H.

(** A valid assignment stores the value and recomputes the selectors at
    once: the instance is the one the constructor builds on the new
    channel or io. *)
Lemma channel_set_recomputes (k : cls) (c c' io : Z) (d : PbHubChannel) :
  0 <= c <= 5 -> 0 <= c' <= 5 ->
  PbHubChannel_init k (PyInt c) (PyInt io) = Ret d ->
  exists d',
    channel_set (PyInt c') d = (Ret tt, d') /\
    PbHubChannel_init k (PyInt c') (PyInt io) = Ret d'.
Proof.
  intros Hc Hc' Hd. unfold channel_set. cbn [as_int].
  rewrite range_test_false by lia.
  pose proof (base_reg_ok (PyInt c) c eq_refl Hc) as Hb.
  pose proof (base_reg_ok (PyInt c') c' eq_refl Hc') as Hb'.
  unfold PbHubChannel_init, _set_reg, io_reg, chan_reg in *.
  destruct k; py_cbv_in Hd; rewrite Hb in Hd; py_cbv_in Hd;
    rewrite ?Hb in Hd; py_cbv_in Hd; injection Hd as <-;
    py_cbv; rewrite Hb'; py_cbv; rewrite ?Hb'; py_cbv;
    eexists; split; reflexivity.
Qed.

Lemma io_set_recomputes (k : cls) (c io io' : Z) (d : PbHubChannel) :
  0 <= c <= 5 -> 0 <= io' <= 1 ->
  PbHubChannel_init k (PyInt c) (PyInt io) = Ret d ->
  exists d',
    io_set (PyInt io') d = (Ret tt, d') /\
    PbHubChannel_init k (PyInt c) (PyInt io') = Ret d'.
Proof.
  intros Hc Hio Hd. unfold io_set. cbn [as_int].
  rewrite range_test_false by lia.
  pose proof (base_reg_ok (PyInt c) c eq_refl Hc) as Hb.
  unfold PbHubChannel_init, _set_reg, io_reg, chan_reg in *.
  destruct k; py_cbv_in Hd; rewrite Hb in Hd; py_cbv_in Hd;
    rewrite ?Hb in Hd; py_cbv_in Hd; injection Hd as <-;
    py_cbv; rewrite Hb; py_cbv; rewrite ?Hb; py_cbv;
    eexists; split; reflexivity.
Qed.

(** C2 (the code misses it): [_PbHubChannel.__init__] stores [channel] and
    [io] without the checks of the property setters.  A digital input on
    channel -1, io 7 is built, on the selector of channel 5; channel 6 is
    an IndexError and a string channel a TypeError, neither of them the
    ValueError of the setters; an analog input on channel -6 is built on
    the selector of channel 0. *)
Theorem C2_constructor_skips_validation :
  PbHubChannel_init PbHubDigitalInput (PyInt (-1)) (PyInt 7)
  = Ret {| klass := PbHubDigitalInput; _channel := PyInt (-1);
           _io := PyInt 7; _reg_num := Some 0xA5;
           _reg_num_angle := None; _reg_num_pulse := None |} /\
  PbHubChannel_init PbHubPwmOutput (PyInt 6) (PyInt 0) = Raise IndexError /\
  PbHubChannel_init PbHubServo (PyStr "0") (PyInt 0) = Raise TypeError /\
  PbHubAnalogInput_init (PyInt (-6))
  = Ret {| klass := PbHubAnalogInput; _channel := PyInt (-6);
           _io := PyInt 0; _reg_num := Some 0x46;
           _reg_num_angle := None; _reg_num_pulse := None |}.
Proof. repeat split. Qed.

(** ** LED strip: count, pixels, ranges *)

(** C1 as stated fails on the getter: with the hub answering 0x0A, 0x01
    the code reads one byte and returns 10; a two-byte little-endian read
    would consume both and return 266. *)
Lemma C1_getter_reads_one_byte :
  NeoPixels.number_of_leds strip0 (answering [x0a; x01])
  = (Ret (PyInt 10),
     {| txs := [[Write [0x48]; ReadInto 1]]; pending := [x01] |}) /\
  led_count_two_byte_read strip0 (answering [x0a; x01])
  = (Ret (PyInt 266),
     {| txs := [[Write [0x48]; ReadInto 2]]; pending := [] |}) /\
  NeoPixels.number_of_leds strip0 (answering [x0a; x01])
  <> led_count_two_byte_read strip0 (answering [x0a; x01]).
Proof. repeat split. discriminate. Qed.

(** C1 (amended): the led-count getter writes the one-byte count selector,
    reads ONE byte and returns it; the setter raises ValueError, with no
    transaction, for a non-int and for an int outside 0..74, and for an int
    n of 0..74 issues exactly one write [selector, n & 0xFF, n >> 8]. *)
Theorem C1_led_count (self : NeoPixels.t) :
  constructed self ->
  (forall t x rest,
      NeoPixels.number_of_leds self {| txs := t; pending := x :: rest |}
      = (Ret (PyInt (byte_val x)),
         {| txs := t ++ [[Write [NeoPixels._reg_num_num_leds self];
                          ReadInto 1]];
            pending := rest |})) /\
  (forall number b,
      as_int number = None \/
      (exists n, as_int number = Some n /\ (n < 0 \/ 74 < n)) ->
      NeoPixels.number_of_leds_set self number b = (Raise ValueError, b)) /\
  (forall number n b,
      as_int number = Some n -> 0 <= n <= 74 ->
      NeoPixels.number_of_leds_set self number b
      = (Ret tt, sent b [NeoPixels._reg_num_num_leds self; Z.land n 0xFF;
                         Z.shiftr n 8])).
Proof.
  intros Hself. split; [|split].
  - intros t x rest. now apply number_of_leds_run.
  - intros number b H. now apply number_of_leds_set_rejects.
  - intros number n b Hn Hr. now apply number_of_leds_set_run.
Qed.

Lemma C1_led_count_witness :
  constructed strip0 /\
  NeoPixels.number_of_leds_set strip0 (PyInt 74) idle
  = (Ret tt, sent idle [0x48; 74; 0]).
Proof.
  assert (H : constructed strip0).
  { exists (PyInt 0), 0. repeat split; lia. }
  split; [exact H|].
  destruct (C1_led_count strip0 H) as (_ & _ & Hset).
  apply (Hset (PyInt 74) 74 idle); [reflexivity | lia].
Defined.

(** C3 (the code misses it): index 74, one past the last of at most 74
    LEDs, passes the check [index > 74] and is written to the hub. *)
Theorem C3_index_74_is_written :
  NeoPixels.__setitem__ strip0 (Index (PyInt 74)) (PyInt 0xFF0000) idle
  = (Ret tt, sent idle [0x49; 74; 0; 0xFF; 0x00; 0x00]) /\
  NeoPixels.__setitem__ strip0 (Index (PyInt 75)) (PyInt 0xFF0000) idle
  = (Raise ValueError, idle).
Proof. split; reflexivity. Qed.

(** C5: a slice assignment with int bounds raises ValueError, with no
    transaction, when start or stop is outside 0..74 or stop < start; does
    nothing when stop = start; and otherwise issues exactly one write of
    eight bytes [range selector, start low, start high, count low, count
    high, R, G, B] with count = stop - start. *)
Theorem C5_slice_assignment (self : NeoPixels.t) :
  constructed self ->
  forall (start stop : Z) (step : option Z) (color : pyval) (b : bus),
    (start < 0 \/ 74 < start \/ stop < 0 \/ 74 < stop \/ stop < start ->
     NeoPixels.__setitem__ self (Slice (Some start) (Some stop) step) color b
     = (Raise ValueError, b)) /\
    (0 <= start <= 74 -> stop = start ->
     NeoPixels.__setitem__ self (Slice (Some start) (Some stop) step) color b
     = (Ret tt, b)) /\
    (0 <= start -> start < stop -> stop <= 74 ->
     forall r g bl, rgb_of color = Some (r, g, bl) ->
     NeoPixels.__setitem__ self (Slice (Some start) (Some stop) step) color b
     = (Ret tt,
        sent b [NeoPixels._reg_num_range_led_color self;
                Z.land start 0xFF; Z.shiftr start 8;
                Z.land (stop - start) 0xFF; Z.shiftr (stop - start) 8;
                r; g; bl])).
Proof.
  intros Hself start stop step color b. split; [|split].
  - now apply setitem_slice_rejects.
  - intros Hs ->. now apply setitem_slice_empty.
  - intros H0 Hlt H74 r g bl Hrgb. now apply setitem_slice_run.
Qed.

Lemma C5_slice_assignment_witness :
  constructed strip0 /\
  NeoPixels.__setitem__ strip0 (Slice (Some 3) (Some 3) None) (PyInt 0xFF) idle
  = (Ret tt, idle) /\
  NeoPixels.__setitem__ strip0 (Slice (Some 5) (Some 2) None) (PyInt 0xFF) idle
  = (Raise ValueError, idle) /\
  NeoPixels.__setitem__ strip0 (Slice (Some 1) (Some 3) None)
    (PyInt 0x00FFFF) idle
  = (Ret tt, sent idle [0x4A; 1; 0; 2; 0; 0x00; 0xFF; 0xFF]).
Proof.
  assert (H : constructed strip0).
  { exists (PyInt 0), 0. repeat split; lia. }
  split; [exact H|]. split; [|split].
  - apply (C5_slice_assignment strip0 H 3 3 None (PyInt 0xFF) idle);
      [lia | reflexivity].
  - apply (C5_slice_assignment strip0 H 5 2 None (PyInt 0xFF) idle). lia.
  - apply (C5_slice_assignment strip0 H 1 3 None (PyInt 0x00FFFF) idle);
      [lia | lia | lia | reflexivity].
Defined.

(** ** The register map on the wire *)

Lemma number_of_leds_selector (self : NeoPixels.t) (b : bus) :
  constructed self ->
  selectors (snd (NeoPixels.number_of_leds self b))
  = selectors b ++ [NeoPixels._reg_num_num_leds self].
Proof.
  intros Hself. pose proof (num_leds_reg_byte self Hself) as Hreg.
  unfold NeoPixels.number_of_leds. run_stores.
  rewrite snd_bind_ret. apply read_selectors.
Qed.

(** C4: on every channel 0..5 the selector each operation puts on the wire
    is base[channel] | code, with base = 0x40, 0x50, 0x60, 0x70, 0x80, 0xA0
    and the codes of the table [code] (digital input 0x04/0x05, digital
    output 0x00/0x01, analog input 0x06, PWM 0x02/0x03, servo angle
    0x0C/0x0D, servo pulse 0x0E/0x0F for io 0/1; LED count 0x08, single
    pixel 0x09, range 0x0A, brightness 0x0B).  The brightness register is
    the one the brightness setter writes; the brightness getter goes
    through the led-count selector (C6). *)
Theorem C4_register_selectors (c io : Z) :
  0 <= c <= 5 -> 0 <= io <= 1 ->
  _CHANNEL_BASE_REG = [0x40; 0x50; 0x60; 0x70; 0x80; 0xA0] /\
  base_reg (PyInt c) = Ret (base c) /\
  (exists d,
      PbHubChannel_init PbHubDigitalInput (PyInt c) (PyInt io) = Ret d /\
      forall b, selectors (snd (DigitalInput_value d b))
                = selectors b ++ [selector DigitalIn c io]) /\
  (exists d,
      PbHubChannel_init PbHubDigitalOutput (PyInt c) (PyInt io) = Ret d /\
      (forall b, selectors (snd (DigitalOutput_value d b))
                 = selectors b ++ [selector DigitalOut c io]) /\
      (forall value b, selectors (snd (DigitalOutput_value_set d value b))
                       = selectors b ++ [selector DigitalOut c io])) /\
  (exists d,
      PbHubAnalogInput_init (PyInt c) = Ret d /\
      forall b, selectors (snd (AnalogInput_value d b))
                = selectors b ++ [selector AnalogIn c 0]) /\
  (exists d,
      PbHubChannel_init PbHubPwmOutput (PyInt c) (PyInt io) = Ret d /\
      (forall b, selectors (snd (PwmOutput_value d b))
                 = selectors b ++ [selector PwmOut c io]) /\
      (forall v b, 0 <= v <= 255 ->
                   selectors (snd (PwmOutput_value_set d (PyInt v) b))
                   = selectors b ++ [selector PwmOut c io])) /\
  (exists d,
      PbHubChannel_init PbHubServo (PyInt c) (PyInt io) = Ret d /\
      (forall b, selectors (snd (Servo_angle d b))
                 = selectors b ++ [selector ServoAngle c io]) /\
      (forall v b, 0 <= v <= 180 ->
                   selectors (snd (Servo_angle_set d (PyInt v) b))
                   = selectors b ++ [selector ServoAngle c io]) /\
      (forall b, selectors (snd (Servo_pulse d b))
                 = selectors b ++ [selector ServoPulse c io]) /\
      (forall v b, 500 <= v <= 2500 ->
                   selectors (snd (Servo_pulse_set d (PyInt v) b))
                   = selectors b ++ [selector ServoPulse c io])) /\
  (exists s,
      NeoPixels._set_reg (PyInt c) = Ret s /\
      (forall b, selectors (snd (NeoPixels.number_of_leds s b))
                 = selectors b ++ [selector LedCount c 0]) /\
      (forall n b, 0 <= n <= 74 ->
                   selectors (snd (NeoPixels.number_of_leds_set s (PyInt n) b))
                   = selectors b ++ [selector LedCount c 0]) /\
      (forall i color r g bl b,
          0 <= i <= 74 -> rgb_of color = Some (r, g, bl) ->
          selectors (snd (NeoPixels.__setitem__ s (Index (PyInt i)) color b))
          = selectors b ++ [selector LedPixel c 0]) /\
      (forall start stop color r g bl b,
          0 <= start -> start < stop -> stop <= 74 ->
          rgb_of color = Some (r, g, bl) ->
          selectors (snd (NeoPixels.__setitem__ s
                            (Slice (Some start) (Some stop) None) color b))
          = selectors b ++ [selector LedRange c 0]) /\
      (forall (FF : FloatFormat) value x b,
          as_number value = Some x -> in_unit x = true ->
          selectors (snd (NeoPixels.brightness_set s value b))
          = selectors b ++ [selector LedBrightness c 0]) /\
      (forall (FF : FloatFormat) b,
          selectors (snd (NeoPixels.brightness s b))
          = selectors b ++ [selector LedCount c 0])).
Proof.
  intros Hc Hio.
  split; [reflexivity|]. split; [now apply base_reg_ok|].
  repeat apply conj.
  - eexists. split; [now apply init_digital_input|]. intros b.
    apply DigitalInput_value_selector; [now apply selector_byte|reflexivity].
  - eexists. split; [now apply init_digital_output|]. split.
    + intros b. apply DigitalOutput_value_selector;
        [now apply selector_byte|reflexivity].
    + intros value b.
      rewrite (DigitalOutput_value_set_run _ (selector DigitalOut c io));
        [apply selectors_sent | now apply selector_byte | reflexivity].
  - eexists. split; [now apply init_analog_input|]. intros b.
    apply AnalogInput_value_selector; [now apply selector_byte|reflexivity].
  - eexists. split; [now apply init_pwm_output|]. split.
    + intros b. apply PwmOutput_value_selector;
        [now apply selector_byte|reflexivity].
    + intros v b Hv.
      rewrite (PwmOutput_value_set_run _ (selector PwmOut c io)
                 (selector_byte _ _ _ Hc) (PyInt v) v);
        [apply selectors_sent | reflexivity | reflexivity | exact Hv].
  - eexists. split; [now apply init_servo|]. repeat apply conj.
    + intros b. apply Servo_angle_selector;
        [now apply selector_byte|reflexivity].
    + intros v b Hv.
      rewrite (Servo_angle_set_run _ (selector ServoAngle c io)
                 (selector_byte _ _ _ Hc) (PyInt v) v);
        [apply selectors_sent | reflexivity | reflexivity | exact Hv].
    + intros b. apply Servo_pulse_selector;
        [now apply selector_byte|reflexivity].
    + intros v b Hv.
      rewrite (Servo_pulse_set_run _ (selector ServoPulse c io)
                 (selector_byte _ _ _ Hc) (PyInt v) v);
        [apply selectors_sent | reflexivity | reflexivity | exact Hv].
  - destruct (set_reg_constructed (PyInt c) c eq_refl Hc) as (s & Hs & Hcon).
    exists s. split; [exact Hs|].
    assert (Hregs :
      NeoPixels._reg_num_num_leds s = selector LedCount c 0 /\
      NeoPixels._reg_num_brightness s = selector LedBrightness c 0 /\
      NeoPixels._reg_num_one_led_color s = selector LedPixel c 0 /\
      NeoPixels._reg_num_range_led_color s = selector LedRange c 0).
    { unfold NeoPixels._set_reg in Hs.
      rewrite (base_reg_ok (PyInt c) c eq_refl Hc) in Hs.
      injection Hs as <-. repeat split. }
    destruct Hregs as (Hn & Hb & Ho & Hr). repeat apply conj.
    + intros b. rewrite <- Hn. now apply number_of_leds_selector.
    + intros n b Hrange.
      rewrite (number_of_leds_set_run s Hcon (PyInt n) n b eq_refl Hrange).
      rewrite Hn. apply selectors_sent.
    + intros i color r g bl b Hi Hrgb.
      rewrite (setitem_index_run s Hcon (PyInt i) color i r g bl b
                 eq_refl Hi Hrgb).
      rewrite Ho. apply selectors_sent.
    + intros start stop color r g bl b H0 Hlt H74 Hrgb.
      rewrite (setitem_slice_run s Hcon start stop None color r g bl b
                 H0 Hlt H74 Hrgb).
      rewrite Hr. apply selectors_sent.
    + intros FF value x b Hnum Hunit.
      destruct (brightness_byte_ok value x Hnum Hunit) as (k & Hk & Hrange).
      rewrite (brightness_set_run s Hcon value x k b Hnum Hunit Hk Hrange).
      rewrite Hb. apply selectors_sent.
    + intros FF b. rewrite <- Hn. now apply brightness_selector.
Qed.

Lemma C4_register_selectors_witness :
  0 <= 5 <= 5 /\ 0 <= 1 <= 1 /\
  exists d,
    PbHubChannel_init PbHubServo (PyInt 5) (PyInt 1) = Ret d /\
    forall b, selectors (snd (Servo_pulse d b)) = selectors b ++ [0xAF].
Proof.
  assert (Hc : 0 <= 5 <= 5) by lia.
  assert (Hio : 0 <= 1 <= 1) by lia.
  split; [exact Hc|]. split; [exact Hio|].
  destruct (C4_register_selectors 5 1 Hc Hio)
    as (_ & _ & _ & _ & _ & _ & (d & Hd & _ & _ & Hp & _) & _).
  exists d. split; [exact Hd | exact Hp].
Defined.

(** ** Colors *)

Lemma bind_ext {S A B : Type} (m : ST S A) (k1 k2 : A -> ST S B) (s : S) :
  (forall a s', k1 a s' = k2 a s') ->
  (x <- m;; k1 x) s = (x <- m;; k2 x) s.
Proof.
  intros H. rewrite !bind_run. destruct (m s) as [[a|e] s']; auto.
Qed.

(** Two colors that store the same bytes in every buffer are written the
    same way, at a single index and over a range. *)
Lemma setitem_color_ext (self : NeoPixels.t) (index : pyindex)
  (c1 c2 : pyval) (b : bus) :
  (forall (buf : list Z) (i : nat) (s : bus),
      NeoPixels.store_color buf i c1 s = NeoPixels.store_color buf i c2 s) ->
  NeoPixels.__setitem__ self index c1 b = NeoPixels.__setitem__ self index c2 b.
Proof.
  intros Hcol. unfold NeoPixels.__setitem__.
  destruct index as [[start|] [stop|] step | v]; try reflexivity.
  - destruct ((start <? 0) || (start >? _MAX_NUM_OF_LED)); [reflexivity|].
    destruct ((stop <? 0) || (stop >? _MAX_NUM_OF_LED)); [reflexivity|].
    destruct (stop <? start); [reflexivity|].
    destruct (stop - start =? 0); [reflexivity|].
    cbv zeta. repeat (apply bind_ext; intros).
    now rewrite !bind_run, Hcol.
  - destruct (as_int v) as [i|]; [|reflexivity].
    destruct ((i <? 0) || (i >? _MAX_NUM_OF_LED)); [reflexivity|].
    cbv zeta. repeat (apply bind_ext; intros).
    now rewrite !bind_run, Hcol.
Qed.

Lemma store_color_packed {T : Type} (r g bl : Z) (buf : list Z) (i : nat)
  (s : T) :
  0 <= r <= 255 -> 0 <= g <= 255 -> 0 <= bl <= 255 ->
  NeoPixels.store_color buf i (PyInt (pack r g bl)) s
  = NeoPixels.store_color buf i (PyList [PyInt r; PyInt g; PyInt bl]) s.
Proof.
  intros Hr Hg Hb.
  transitivity
    ((b1 <- setbyte buf i (Z.land r 0xFF);;
      b2 <- setbyte b1 (i + 1) (Z.land g 0xFF);;
      setbyte b2 (i + 2) (Z.land bl 0xFF)) s).
  - rewrite !land_byte_id by assumption.
    unfold NeoPixels.store_color. cbn [as_int].
    now rewrite pack_red, pack_green, pack_blue.
  - unfold NeoPixels.store_color. cbn [as_int py_getitem].
    rewrite list_index_0, list_index_1, list_index_2. reflexivity.
Qed.

Lemma store_color_low24 {T : Type} (c : Z) (buf : list Z) (i : nat) (s : T) :
  NeoPixels.store_color buf i (PyInt c) s
  = NeoPixels.store_color buf i (PyInt (c mod 2 ^ 24)) s.
Proof.
  unfold NeoPixels.store_color. cbn [as_int].
  rewrite (low24_byte c 16), (low24_byte c 8) by lia.
  pose proof (low24_byte c 0) as H0. rewrite !Z.shiftr_0_r in H0.
  now rewrite H0 by lia.
Qed.

(** C7: for R, G, B of 0..255 the packed int (R<<16)|(G<<8)|B and the
    sequence [R, G, B] give the same outcome and the same bytes on the wire,
    whatever the index or the range; 0xFF00FF puts 0xFF, 0x00, 0xFF. *)
Theorem C7_packed_and_triplet_agree (self : NeoPixels.t) (index : pyindex)
  (r g bl : Z) (b : bus) :
  0 <= r <= 255 -> 0 <= g <= 255 -> 0 <= bl <= 255 ->
  NeoPixels.__setitem__ self index (PyInt (pack r g bl)) b
  = NeoPixels.__setitem__ self index (PyList [PyInt r; PyInt g; PyInt bl]) b
  /\
  rgb_of (PyInt (pack r g bl)) = Some (r, g, bl) /\
  rgb_of (PyList [PyInt r; PyInt g; PyInt bl]) = Some (r, g, bl) /\
  NeoPixels.__setitem__ strip0 (Index (PyInt 3)) (PyInt 0xFF00FF) idle
  = (Ret tt, sent idle [0x49; 3; 0; 0xFF; 0x00; 0xFF]) /\
  NeoPixels.__setitem__ strip0 (Index (PyInt 3))
    (PyList [PyInt 255; PyInt 0; PyInt 255]) idle
  = (Ret tt, sent idle [0x49; 3; 0; 0xFF; 0x00; 0xFF]).
Proof.
  intros Hr Hg Hb. repeat apply conj; try reflexivity.
  - apply setitem_color_ext. intros buf i s.
    now apply store_color_packed.
  - unfold rgb_of. cbn [as_int].
    now rewrite pack_red, pack_green, pack_blue.
  - unfold rgb_of. cbn [as_int]. now rewrite !land_byte_id.
Qed.

Lemma C7_packed_and_triplet_agree_witness :
  0 <= 18 <= 255 /\ 0 <= 52 <= 255 /\ 0 <= 86 <= 255 /\
  NeoPixels.__setitem__ strip0 (Slice (Some 0) (Some 10) None)
    (PyInt (pack 18 52 86)) idle
  = NeoPixels.__setitem__ strip0 (Slice (Some 0) (Some 10) None)
      (PyList [PyInt 18; PyInt 52; PyInt 86]) idle.
Proof.
  assert (Hr : 0 <= 18 <= 255) by lia.
  assert (Hg : 0 <= 52 <= 255) by lia.
  assert (Hb : 0 <= 86 <= 255) by lia.
  repeat (split; [assumption|]).
  apply (C7_packed_and_triplet_agree strip0
           (Slice (Some 0) (Some 10) None) 18 52 86 idle Hr Hg Hb).
Defined.

(** C10: an int color is never checked.  For every int c a write at a valid
    index or over a valid range succeeds with the payload bytes
    (c >> 16) & 0xFF, (c >> 8) & 0xFF, c & 0xFF, and c and c mod 2^24 give
    the same outcome for every index; 0x1000000 writes what 0 writes. *)
Theorem C10_int_color_low_24_bits (self : NeoPixels.t) :
  constructed self ->
  forall (color : pyval) (c : Z), as_int color = Some c ->
    (forall index i b,
        as_int index = Some i -> 0 <= i <= 74 ->
        NeoPixels.__setitem__ self (Index index) color b
        = (Ret tt,
           sent b [NeoPixels._reg_num_one_led_color self;
                   Z.land i 0xFF; Z.shiftr i 8;
                   Z.land (Z.shiftr c 16) 0xFF; Z.land (Z.shiftr c 8) 0xFF;
                   Z.land c 0xFF])) /\
    (forall start stop step b,
        0 <= start -> start < stop -> stop <= 74 ->
        NeoPixels.__setitem__ self (Slice (Some start) (Some stop) step)
          color b
        = (Ret tt,
           sent b [NeoPixels._reg_num_range_led_color self;
                   Z.land start 0xFF; Z.shiftr start 8;
                   Z.land (stop - start) 0xFF; Z.shiftr (stop - start) 8;
                   Z.land (Z.shiftr c 16) 0xFF; Z.land (Z.shiftr c 8) 0xFF;
                   Z.land c 0xFF])) /\
    (forall index b,
        NeoPixels.__setitem__ self index (PyInt c) b
        = NeoPixels.__setitem__ self index (PyInt (c mod 2 ^ 24)) b) /\
    (forall index b,
        NeoPixels.__setitem__ self index (PyInt 0x1000000) b
        = NeoPixels.__setitem__ self index (PyInt 0) b).
Proof.
  intros Hself color c Hc.
  assert (Hrgb : rgb_of color
                 = Some (Z.land (Z.shiftr c 16) 0xFF,
                         Z.land (Z.shiftr c 8) 0xFF, Z.land c 0xFF)).
  { unfold rgb_of. now rewrite Hc. }
  repeat apply conj.
  - intros index i b Hi Hr. now apply setitem_index_run.
  - intros start stop step b H0 Hlt H74. now apply setitem_slice_run.
  - intros index b. apply setitem_color_ext. intros buf i s.
    apply store_color_low24.
  - intros index b. apply setitem_color_ext. intros buf i s.
    apply (store_color_low24 0x1000000).
Qed.

Lemma C10_int_color_low_24_bits_witness :
  constructed strip0 /\
  NeoPixels.__setitem__ strip0 (Index (PyInt 2)) (PyInt (-1)) idle
  = (Ret tt, sent idle [0x49; 2; 0; 0xFF; 0xFF; 0xFF]) /\
  NeoPixels.__setitem__ strip0 (Index (PyInt 2)) (PyInt 0x1FF0000) idle
  = NeoPixels.__setitem__ strip0 (Index (PyInt 2)) (PyInt 0xFF0000) idle.
Proof.
  assert (H : constructed strip0).
  { exists (PyInt 0), 0. repeat split; lia. }
  split; [exact H|]. split.
  - destruct (C10_int_color_low_24_bits strip0 H (PyInt (-1)) (-1) eq_refl)
      as (Hone & _).
    apply (Hone (PyInt 2) 2 idle); [reflexivity | lia].
  - destruct (C10_int_color_low_24_bits strip0 H (PyInt 0x1FF0000) 0x1FF0000
                eq_refl) as (_ & _ & Hmod & _).
    apply (Hmod (Index (PyInt 2)) idle).
Defined.

(** ** fill *)

(** C8 as stated fails when the hub answers the count read with a byte
    above 74: the count is non-zero, yet [fill] raises ValueError after the
    read and issues no range write. *)
Lemma C8_count_above_74_raises :
  NeoPixels.fill strip0 (PyInt 0xFFFF00) (answering [xc8])
  = (Raise ValueError,
     {| txs := [[Write [0x48]; ReadInto 1]]; pending := [] |}).
Proof. reflexivity. Qed.

(** C8 (amended): [fill(color)] is the range write with start 0 and stop
    the count just read: it first issues the led-count read transaction;
    then nothing more when the count is 0, exactly one range write starting
    at index 0 with that count when the count is 1..74, and a ValueError
    with no range write when the byte read is above 74.  On a hub reporting
    10 the range write has start 0 and count 10. *)
Theorem C8_fill (self : NeoPixels.t) :
  constructed self ->
  forall (color : pyval) (t : list (list op)) (x : byte) (rest : list byte),
    let n := byte_val x in
    let hub := {| txs := t; pending := x :: rest |} in
    let read := [Write [NeoPixels._reg_num_num_leds self]; ReadInto 1] in
    let hub' := {| txs := t ++ [read]; pending := rest |} in
    NeoPixels.fill self color hub
    = NeoPixels.__setitem__ self (Slice (Some 0) (Some n) None) color hub' /\
    (n = 0 -> NeoPixels.fill self color hub = (Ret tt, hub')) /\
    (1 <= n <= 74 ->
     forall r g bl, rgb_of color = Some (r, g, bl) ->
       NeoPixels.fill self color hub
       = (Ret tt,
          sent hub' [NeoPixels._reg_num_range_led_color self;
                     0; 0; n; 0; r; g; bl])) /\
    (74 < n -> NeoPixels.fill self color hub = (Raise ValueError, hub')) /\
    NeoPixels.fill strip0 (PyInt 0xFFFF00) (answering [x0a])
    = (Ret tt,
       {| txs := [[Write [0x48]; ReadInto 1];
                  [Write [0x4A; 0; 0; 10; 0; 0xFF; 0xFF; 0x00]]];
          pending := [] |}).
Proof.
  intros Hself color t x rest n hub read hub'.
  assert (Hfill : NeoPixels.fill self color hub
                  = NeoPixels.__setitem__ self
                      (Slice (Some 0) (Some n) None) color hub').
  { now apply fill_run. }
  split; [exact Hfill|]. split; [|split; [|split; [|reflexivity]]].
  - intros Hn. rewrite Hfill, Hn. now apply setitem_slice_empty.
  - intros Hn r g bl Hrgb. rewrite Hfill.
    rewrite (setitem_slice_run self Hself 0 n None color r g bl hub')
      by (assumption || lia).
    rewrite Z.sub_0_r, (land_byte_id n), (shiftr8_small n) by lia.
    reflexivity.
  - intros Hn. rewrite Hfill. apply setitem_slice_rejects. lia.
Qed.

Lemma C8_fill_witness :
  constructed strip0 /\
  NeoPixels.fill strip0 (PyList [PyInt 1; PyInt 2; PyInt 3])
    (answering [x4a; xff])
  = (Ret tt,
     sent {| txs := [[Write [0x48]; ReadInto 1]]; pending := [xff] |}
       [0x4A; 0; 0; 74; 0; 1; 2; 3]).
Proof.
  assert (H : constructed strip0).
  { exists (PyInt 0), 0. repeat split; lia. }
  split; [exact H|].
  destruct (C8_fill strip0 H (PyList [PyInt 1; PyInt 2; PyInt 3]) [] x4a [xff])
    as (_ & _ & Hrange & _).
  apply (Hrange ltac:(vm_compute; split; discriminate) 1 2 3 eq_refl).
Defined.

(** ** Brightness and construction *)

Lemma led_selectors_differ (c : Z) :
  0 <= c <= 5 -> Z.lor (base c) 0x08 <> Z.lor (base c) 0x0B.
Proof.
  intros Hc.
  destruct (channel_cases c Hc) as [-> | [-> | [-> | [-> | [-> | ->]]]]];
    discriminate.
Qed.

(** C6: the brightness getter reads through the led-count selector
    base | 0x08, not the brightness selector base | 0x0B, and returns the
    byte read divided by 255 and rounded to two decimals; the setter raises
    ValueError, with no transaction, for a value that is not a number or not
    within 0.0 .. 1.0, and for a number of that interval issues exactly one
    write [brightness selector, round(255 * value)]. *)
Theorem C6_brightness {FF : FloatFormat} (self : NeoPixels.t) :
  constructed self ->
  (exists c, 0 <= c <= 5 /\
     NeoPixels._reg_num_num_leds self = Z.lor (base c) 0x08 /\
     NeoPixels._reg_num_brightness self = Z.lor (base c) 0x0B /\
     NeoPixels._reg_num_num_leds self <> NeoPixels._reg_num_brightness self)
  /\
  (forall t x rest, exists r,
      fround (inject_Z (byte_val x) / 255) = FFin r /\
      NeoPixels.brightness self {| txs := t; pending := x :: rest |}
      = (Ret (PyFloat
                (fround (inject_Z (round_half_even (r * 100)) / 100))),
         {| txs := t ++ [[Write [NeoPixels._reg_num_num_leds self];
                          ReadInto 1]];
            pending := rest |})) /\
  (forall value b,
      as_number value = None \/
      (exists x, as_number value = Some x /\ in_unit x = false) ->
      NeoPixels.brightness_set self value b = (Raise ValueError, b)) /\
  (forall value x b,
      as_number value = Some x -> in_unit x = true ->
      exists k,
        brightness_byte value = Ret k /\ 0 <= k <= 255 /\
        NeoPixels.brightness_set self value b
        = (Ret tt, sent b [NeoPixels._reg_num_brightness self; k])).
Proof.
  intros Hself. repeat apply conj.
  - destruct (constructed_regs self Hself) as (c & Hc & Hn & Hb & _).
    exists c. rewrite Hn, Hb. repeat split; try lia.
    now apply led_selectors_differ.
  - intros t x rest. now apply brightness_run.
  - intros value b H. now apply brightness_set_rejects.
  - intros value x b Hnum Hunit.
    destruct (brightness_byte_ok value x Hnum Hunit) as (k & Hk & Hr).
    exists k. repeat split; try assumption; try lia.
    now apply (brightness_set_run self Hself value x k b).
Qed.

(** On CPython's floats, brightness 0.1 (the float nearest to one tenth):
    255 * 0.1 rounds to 25.5 and [round] takes the tie to the even 26. *)
Lemma C6_brightness_witness :
  constructed strip0 /\
  @NeoPixels.brightness_set binary64 strip0
    (PyFloat (FFin (3602879701896397 # 36028797018963968))) idle
  = (Ret tt, sent idle [0x4B; 26]).
Proof.
  assert (H : constructed strip0).
  { exists (PyInt 0), 0. repeat split; lia. }
  split; [exact H|].
  destruct (@C6_brightness binary64 strip0 H) as (_ & _ & _ & Hset).
  destruct (Hset (PyFloat (FFin (3602879701896397 # 36028797018963968)))
              (FFin (3602879701896397 # 36028797018963968)) idle
              eq_refl eq_refl)
    as (k & Hk & _ & Hrun).
  vm_compute in Hk. injection Hk as <-. exact Hrun.
Defined.

(** C9: the constructor is not free of side effects.  After the channel
    check it runs the number_of_leds setter and then the brightness setter:
    a successful construction has issued two writes, the led count first and
    the brightness second; a count that is not an int of 0..74 raises
    ValueError before any write, and a brightness that is not a number of
    0.0 .. 1.0 raises ValueError after the count has been written. *)
Theorem C9_constructor {FF : FloatFormat}
  (channel number brightness : pyval) (b : bus) :
  (as_int channel = None \/
   (exists c, as_int channel = Some c /\ (c < 0 \/ 5 < c)) ->
   NeoPixels.__init__ channel number brightness b = (Raise ValueError, b)) /\
  (forall c, as_int channel = Some c -> 0 <= c <= 5 ->
     (as_int number = None \/
      (exists n, as_int number = Some n /\ (n < 0 \/ 74 < n)) ->
      NeoPixels.__init__ channel number brightness b
      = (Raise ValueError, b)) /\
     (forall n, as_int number = Some n -> 0 <= n <= 74 ->
        let counted :=
          sent b [selector LedCount c 0; Z.land n 0xFF; Z.shiftr n 8] in
        (as_number brightness = None \/
         (exists x, as_number brightness = Some x /\ in_unit x = false) ->
         NeoPixels.__init__ channel number brightness b
         = (Raise ValueError, counted)) /\
        (forall x, as_number brightness = Some x -> in_unit x = true ->
           exists self k,
             NeoPixels._set_reg channel = Ret self /\
             brightness_byte brightness = Ret k /\ 0 <= k <= 255 /\
             NeoPixels.__init__ channel number brightness b
             = (Ret self,
                sent counted [selector LedBrightness c 0; k])))).
Proof.
  split.
  - intros [Hc | (c & Hc & Hr)]; unfold NeoPixels.__init__; rewrite Hc;
      [reflexivity|].
    now rewrite range_test_true by lia.
  - intros c Hc Hr.
    destruct (set_reg_constructed channel c Hc Hr) as (self & Hs & Hself).
    destruct (constructed_regs self Hself) as (c' & Hc' & Hn & Hb & _).
    assert (c' = c) as ->.
    { destruct Hself as (ch & c0 & _). clear - Hs Hn Hc Hr Hc'.
      unfold NeoPixels._set_reg in Hs. rewrite (base_reg_ok _ _ Hc Hr) in Hs.
      injection Hs as <-. cbn in Hn. unfold selector in Hn. cbn [code] in Hn.
      destruct (channel_cases c Hr) as [-> | [-> | [-> | [-> | [-> | ->]]]]];
      destruct (channel_cases c' Hc') as [-> | [-> | [-> | [-> | [-> | ->]]]]];
      try reflexivity; discriminate. }
    rewrite (init_run self channel number brightness c b Hc Hr Hs).
    split.
    + intros Hbad. rewrite bind_run.
      now rewrite (number_of_leds_set_rejects self number b Hbad).
    + intros n Hnum Hrange counted. split.
      * intros Hbad. rewrite bind_run.
        rewrite (number_of_leds_set_run self Hself number n b Hnum Hrange).
        rewrite bind_run.
        rewrite (brightness_set_rejects self Hself brightness _ Hbad).
        unfold counted. now rewrite Hn.
      * intros x Hx Hunit.
        destruct (brightness_byte_ok brightness x Hx Hunit) as (k & Hk & Hkr).
        exists self, k. repeat split; try assumption; try lia.
        rewrite bind_run.
        rewrite (number_of_leds_set_run self Hself number n b Hnum Hrange).
        rewrite bind_run.
        rewrite (brightness_set_run self Hself brightness x k _ Hx Hunit Hk Hkr).
        unfold counted. now rewrite Hn, Hb.
Qed.

Lemma C9_constructor_witness :
  0 <= 1 <= 5 /\ 0 <= 10 <= 74 /\
  @NeoPixels.__init__ exact_format (PyInt 1) (PyInt 10)
    NeoPixels.default_brightness idle
  = (Ret {| NeoPixels._channel := PyInt 1;
            NeoPixels._reg_num_num_leds := 0x58;
            NeoPixels._reg_num_brightness := 0x5B;
            NeoPixels._reg_num_one_led_color := 0x59;
            NeoPixels._reg_num_range_led_color := 0x5A |},
     sent (sent idle [0x58; 10; 0]) [0x5B; 128]).
Proof.
  assert (Hc : 0 <= 1 <= 5) by lia.
  assert (Hn : 0 <= 10 <= 74) by lia.
  split; [exact Hc|]. split; [exact Hn|].
  destruct (@C9_constructor exact_format (PyInt 1) (PyInt 10)
              NeoPixels.default_brightness idle) as (_ & Hok).
  destruct (Hok 1 eq_refl Hc) as (_ & Hcount).
  destruct (Hcount 10 eq_refl Hn) as (_ & Hbright).
  destruct (Hbright (FFin (1 # 2)) eq_refl eq_refl)
    as (self & k & Hs & Hk & _ & Hrun).
  vm_compute in Hs, Hk. injection Hs as <-. injection Hk as <-.
  exact Hrun.
Defined.

(** * Further properties of the driver *)

(** ** Endpoints: what the constructor accepts, what the setters keep *)

Lemma list_index_In {A : Type} (l : list A) (i : Z) (a : A) :
  list_index l i = Ret a -> In a l.
Proof.
  unfold list_index.
  destruct ((_ <? 0) || (_ <=? _)); [discriminate|].
  destruct (nth_error l _) eqn:E; [|discriminate].
  intros [= <-]. eapply nth_error_In; eassumption.
Qed.

Lemma base_reg_is_base (channel : pyval) (b : Z) :
  base_reg channel = Ret b -> exists c, 0 <= c <= 5 /\ b = base c.
Proof.
  unfold base_reg. destruct (as_int channel) as [i|]; [|discriminate].
  intros H. apply list_index_In in H. cbn in H.
  destruct H as [<- | [<- | [<- | [<- | [<- | [<- | []]]]]]];
    [exists 0 | exists 1 | exists 2 | exists 3 | exists 4 | exists 5];
    (split; [lia | reflexivity]).
Qed.

(** [_CHANNEL_BASE_REG[channel]] takes the ints from -6 to 5, the negative
    ones counting from the end of the table. *)
Lemma base_reg_domain (channel : pyval) :
  match as_int channel with
  | None => base_reg channel = Raise TypeError
  | Some c =>
      if (c <? -6) || (5 <? c) then base_reg channel = Raise IndexError
      else base_reg channel = Ret (base (c mod 6))
  end.
Proof.
  unfold base_reg. destruct (as_int channel) as [c|]; [|reflexivity].
  destruct ((c <? -6) || (5 <? c)) eqn:E.
  - apply orb_true_iff in E. unfold list_index.
    change (Z.of_nat (List.length _CHANNEL_BASE_REG)) with 6.
    destruct (Z.ltb_spec c 0).
    + replace ((c + 6 <? 0) || (6 <=? c + 6)) with true; [reflexivity|].
      symmetry. apply orb_true_iff. lia.
    + replace ((c <? 0) || (6 <=? c)) with true; [reflexivity|].
      symmetry. apply orb_true_iff. lia.
  - apply orb_false_iff in E.
    assert (H : c = -6 \/ c = -5 \/ c = -4 \/ c = -3 \/ c = -2 \/ c = -1 \/
                c = 0 \/ c = 1 \/ c = 2 \/ c = 3 \/ c = 4 \/ c = 5) by lia.
    repeat (destruct H as [-> | H]; [reflexivity|]). subst. reflexivity.
Qed.

(** When the table lookup succeeds [_set_reg] succeeds, touches nothing but
    the selectors, and leaves them in sync. *)
Lemma set_reg_total (self : PbHubChannel) (b : Z) :
  byte_attrs self ->
  base_reg (_channel self) = Ret b ->
  exists self',
    _set_reg self = (Ret tt, self') /\
    klass self' = klass self /\ _channel self' = _channel self /\
    _io self' = _io self /\ in_sync self' /\ byte_attrs self'.
Proof.
  intros (Ha1 & Ha2 & Ha3) Hb.
  destruct (base_reg_is_base _ _ Hb) as (c & Hc & ->).
  assert (Hbyte : forall k, 0 <= k <= 15 -> 0 <= Z.lor (base c) k <= 255).
  { intros k Hk. now apply lor_code_byte. }
  assert (Hio : forall c0 c1, 0 <= c0 <= 15 -> 0 <= c1 <= 15 ->
            0 <= Z.lor (base c) (if py_eq_zero (_io self) then c0 else c1)
            <= 255).
  { intros c0 c1 H0 H1. apply Hbyte. now destruct (py_eq_zero (_io self)). }
  destruct self as [k ch io r ra rp]. cbn [_channel _io] in *.
  unfold in_sync, byte_attrs, _set_reg, io_reg, chan_reg.
  destruct k; py_cbv; rewrite Hb; py_cbv; rewrite ?Hb; py_cbv;
    (eexists; split; [reflexivity|]); py_cbv; rewrite Hb; py_cbv;
    rewrite ?Hb; py_cbv; cbn [byte_attr _reg_num _reg_num_angle
                                _reg_num_pulse] in *;
    repeat split; auto; try (apply Hio; lia); try (apply Hbyte; lia).
Qed.

Ltac py_cbv_all :=
  cbv beta iota zeta delta
    [bind klass _channel _io _reg_num _reg_num_angle _reg_num_pulse
     set_channel set_io set_reg_num set_reg_num_angle set_reg_num_pulse
     fst snd] in *.

Lemma fresh_base (d : PbHubChannel) :
  fresh d -> exists b, base_reg (_channel d) = Ret b.
Proof.
  unfold fresh, PbHubChannel_init, _set_reg, io_reg, chan_reg.
  destruct d as [k ch io r ra rp].
  destruct (base_reg ch) as [b|e] eqn:Hb; [eauto|].
  destruct k; py_cbv_all; rewrite Hb; discriminate.
Qed.

Lemma init_fresh (k : cls) (channel io : pyval) (d : PbHubChannel) :
  PbHubChannel_init k channel io = Ret d ->
  klass d = k /\ _channel d = channel /\ _io d = io /\ fresh d.
Proof.
  unfold fresh, PbHubChannel_init, _set_reg, io_reg, chan_reg.
  destruct (base_reg channel) as [b|e] eqn:Hb.
  - destruct k; py_cbv_all; rewrite Hb; py_cbv_all; rewrite ?Hb; py_cbv_all;
      intros [= <-]; py_cbv_all; rewrite Hb; py_cbv_all; rewrite ?Hb;
      repeat split.
  - destruct k; py_cbv_all; rewrite Hb; discriminate.
Qed.

Lemma fresh_in_sync (d : PbHubChannel) : fresh d -> in_sync d /\ byte_attrs d.
Proof.
  intros Hf. destruct (fresh_base d Hf) as (b & Hb).
  destruct (base_reg_is_base _ _ Hb) as (c & Hc & ->).
  assert (Hbyte : forall k, 0 <= k <= 15 -> 0 <= Z.lor (base c) k <= 255).
  { intros k Hk. now apply lor_code_byte. }
  assert (Hio : forall v c0 c1, 0 <= c0 <= 15 -> 0 <= c1 <= 15 ->
            0 <= Z.lor (base c) (if py_eq_zero v then c0 else c1) <= 255).
  { intros v c0 c1 H0 H1. apply Hbyte. now destruct (py_eq_zero v). }
  revert Hf.
  unfold fresh, in_sync, byte_attrs, PbHubChannel_init, _set_reg, io_reg,
    chan_reg.
  destruct d as [k ch io r ra rp].
  destruct k; py_cbv_all; rewrite Hb; py_cbv_all; rewrite ?Hb; py_cbv_all;
    intros [= <- <- <-]; cbn [byte_attr];
    repeat split; auto; try (apply Hio; lia); try (apply Hbyte; lia).
Qed.

(** X1: the constructor of every endpoint class raises TypeError for a
    channel that is not an int, IndexError for an int outside -6..5, and
    otherwise builds the endpoint with the arguments stored as given,
    whatever [io] is: it never raises ValueError. *)
Theorem init_domain (k : cls) (channel io : pyval) :
  match as_int channel with
  | None => PbHubChannel_init k channel io = Raise TypeError
  | Some c =>
      if (c <? -6) || (5 <? c)
      then PbHubChannel_init k channel io = Raise IndexError
      else exists d,
          PbHubChannel_init k channel io = Ret d /\
          klass d = k /\ _channel d = channel /\ _io d = io /\
          byte_attrs d
  end.
Proof.
  pose proof (base_reg_domain channel) as H.
  assert (Hraise : forall e, base_reg channel = Raise e ->
                     PbHubChannel_init k channel io = Raise e).
  { intros e He. unfold PbHubChannel_init, _set_reg, io_reg, chan_reg.
    destruct k; py_cbv_all; rewrite He; reflexivity. }
  destruct (as_int channel) as [c|]; [|now apply Hraise].
  destruct ((c <? -6) || (5 <? c)); [now apply Hraise|].
  destruct (set_reg_total {| klass := k; _channel := channel; _io := io;
                             _reg_num := None; _reg_num_angle := None;
                             _reg_num_pulse := None |} _
              (conj I (conj I I)) H)
    as (d & Hd & Hk & Hc & Hi & _ & Hattr).
  exists d. unfold PbHubChannel_init. rewrite Hd. auto.
Qed.

(** Running [_set_reg] on a fresh endpoint whose channel and io have been
    replaced gives what the constructor builds from the new values. *)
Lemma set_reg_fresh (d : PbHubChannel) (channel io : pyval) (b : Z) :
  fresh d -> base_reg channel = Ret b ->
  exists d',
    _set_reg {| klass := klass d; _channel := channel; _io := io;
                _reg_num := _reg_num d; _reg_num_angle := _reg_num_angle d;
                _reg_num_pulse := _reg_num_pulse d |} = (Ret tt, d') /\
    PbHubChannel_init (klass d) channel io = Ret d'.
Proof.
  intros Hf Hb. destruct (fresh_base d Hf) as (b0 & Hb0). revert Hf.
  unfold fresh, PbHubChannel_init, _set_reg, io_reg, chan_reg.
  destruct d as [k ch0 io0 r ra rp].
  destruct k; py_cbv_all; rewrite Hb0, Hb; py_cbv_all; rewrite ?Hb0, ?Hb;
    py_cbv_all; intros [= <- <- <-]; eexists; split; reflexivity.
Qed.

Lemma channel_set_fresh (d : PbHubChannel) (value : pyval) :
  fresh d ->
  (as_int value = None \/
   (exists v, as_int value = Some v /\ (v < 0 \/ 5 < v)) ->
   channel_set value d = (Raise ValueError, d)) /\
  (forall v, as_int value = Some v -> 0 <= v <= 5 ->
     exists d',
       channel_set value d = (Ret tt, d') /\
       PbHubChannel_init (klass d) value (_io d) = Ret d' /\
       klass d' = klass d /\ _channel d' = value /\ _io d' = _io d /\
       fresh d').
Proof.
  intros Hf. split; [now apply channel_set_rejects|].
  intros v Hv Hr.
  destruct (set_reg_fresh d value (_io d) (base v) Hf (base_reg_ok _ _ Hv Hr))
    as (d' & Hset & Hinit).
  exists d'. unfold channel_set. rewrite Hv, range_test_false by lia.
  rewrite bind_run. cbn [set_channel]. rewrite Hset.
  destruct (init_fresh _ _ _ _ Hinit) as (Hk & Hc & Hi & Hfresh).
  repeat split; assumption || reflexivity.
Qed.

(** X2: assigning to [channel].  A value that is not an int of 0..5 raises
    ValueError and leaves the endpoint as it was; an int of 0..5 is stored,
    io and class are kept, and the endpoint becomes the one the constructor
    builds on the new channel. *)
Theorem channel_assignment (d : PbHubChannel) (value : pyval) :
  fresh d ->
  (as_int value = None \/
   (exists v, as_int value = Some v /\ (v < 0 \/ 5 < v)) ->
   channel_set value d = (Raise ValueError, d)) /\
  (forall v, as_int value = Some v -> 0 <= v <= 5 ->
     exists d',
       channel_set value d = (Ret tt, d') /\
       PbHubChannel_init (klass d) value (_io d) = Ret d' /\
       klass d' = klass d /\ _channel d' = value /\ _io d' = _io d /\
       fresh d').
Proof. exact (channel_set_fresh d value). Qed.

Lemma channel_assignment_witness :
  fresh servo_2_1 /\
  channel_set (PyInt 6) servo_2_1 = (Raise ValueError, servo_2_1) /\
  PbHubChannel_init PbHubServo (PyInt 4) (PyInt 1)
  = Ret (snd (channel_set (PyInt 4) servo_2_1)).
Proof.
  set (d := servo_2_1).
  assert (Hf : fresh d) by reflexivity.
  split; [exact Hf|].
  destruct (channel_assignment d (PyInt 6) Hf) as (Hrej & _).
  destruct (channel_assignment d (PyInt 4) Hf) as (_ & Hok).
  split.
  - apply Hrej. right. exists 6. split; [reflexivity | lia].
  - destruct (Hok 4 eq_refl ltac:(lia)) as (d' & Hset & Hinit & _).
    rewrite Hset. exact Hinit.
Defined.

Lemma io_set_fresh (d : PbHubChannel) (value : pyval) :
  fresh d ->
  (as_int value = None \/
   (exists v, as_int value = Some v /\ (v < 0 \/ 1 < v)) ->
   io_set value d = (Raise ValueError, d)) /\
  (forall v, as_int value = Some v -> 0 <= v <= 1 ->
     exists d',
       io_set value d = (Ret tt, d') /\
       PbHubChannel_init (klass d) (_channel d) value = Ret d' /\
       klass d' = klass d /\ _channel d' = _channel d /\ _io d' = value /\
       fresh d').
Proof.
  intros Hf. split; [now apply io_set_rejects|].
  intros v Hv Hr.
  destruct (fresh_base d Hf) as (b & Hb).
  destruct (set_reg_fresh d (_channel d) value b Hf Hb)
    as (d' & Hset & Hinit).
  exists d'. unfold io_set. rewrite Hv, range_test_false by lia.
  rewrite bind_run. cbn [set_io]. rewrite Hset.
  destruct (init_fresh _ _ _ _ Hinit) as (Hk & Hc & Hi & Hfresh).
  repeat split; assumption || reflexivity.
Qed.

(** X3: assigning to [io], in the same way with the range 0..1. *)
Theorem io_assignment (d : PbHubChannel) (value : pyval) :
  fresh d ->
  (as_int value = None \/
   (exists v, as_int value = Some v /\ (v < 0 \/ 1 < v)) ->
   io_set value d = (Raise ValueError, d)) /\
  (forall v, as_int value = Some v -> 0 <= v <= 1 ->
     exists d',
       io_set value d = (Ret tt, d') /\
       PbHubChannel_init (klass d) (_channel d) value = Ret d' /\
       klass d' = klass d /\ _channel d' = _channel d /\ _io d' = value /\
       fresh d').
Proof. exact (io_set_fresh d value). Qed.

Lemma io_assignment_witness :
  fresh input_0_0 /\
  io_set (PyInt 2) input_0_0 = (Raise ValueError, input_0_0) /\
  PbHubChannel_init PbHubDigitalInput (PyInt 0) (PyBool true)
  = Ret (snd (io_set (PyBool true) input_0_0)).
Proof.
  set (d := input_0_0).
  assert (Hf : fresh d) by reflexivity.
  split; [exact Hf|].
  destruct (io_assignment d (PyInt 2) Hf) as (Hrej & _).
  destruct (io_assignment d (PyBool true) Hf) as (_ & Hok).
  split.
  - apply Hrej. right. exists 2. split; [reflexivity | lia].
  - destruct (Hok 1 eq_refl ltac:(lia)) as (d' & Hset & Hinit & _).
    rewrite Hset. exact Hinit.
Defined.

Lemma assign_fresh (a : assignment) (d : PbHubChannel) :
  fresh d ->
  fresh (snd (assign a d)) /\ klass (snd (assign a d)) = klass d.
Proof.
  intros Hf.
  assert (Hsame : fresh (snd (Raise (A := unit) ValueError, d)) /\
                  klass (snd (Raise (A := unit) ValueError, d)) = klass d).
  { cbn [snd]. split; [exact Hf | reflexivity]. }
  destruct a as [value | value]; cbn [assign].
  - destruct (channel_set_fresh d value Hf) as (Hrej & Hok).
    destruct (as_int value) as [v|] eqn:Hv.
    + destruct (Z_lt_le_dec v 0) as [Hlo | Hlo];
        [now rewrite Hrej by (right; exists v; split; [reflexivity | lia])|].
      destruct (Z_lt_le_dec 5 v) as [Hhi | Hhi];
        [now rewrite Hrej by (right; exists v; split; [reflexivity | lia])|].
      destruct (Hok v eq_refl (conj Hlo Hhi))
        as (d' & -> & _ & Hk & _ & _ & Hf').
      cbn [snd]. split; assumption.
    + now rewrite Hrej by auto.
  - destruct (io_set_fresh d value Hf) as (Hrej & Hok).
    destruct (as_int value) as [v|] eqn:Hv.
    + destruct (Z_lt_le_dec v 0) as [Hlo | Hlo];
        [now rewrite Hrej by (right; exists v; split; [reflexivity | lia])|].
      destruct (Z_lt_le_dec 1 v) as [Hhi | Hhi];
        [now rewrite Hrej by (right; exists v; split; [reflexivity | lia])|].
      destruct (Hok v eq_refl (conj Hlo Hhi))
        as (d' & -> & _ & Hk & _ & _ & Hf').
      cbn [snd]. split; assumption.
    + now rewrite Hrej by auto.
Qed.

(** X4: an endpoint never holds a stale selector.  Whatever the constructor
    was given, once it has returned an endpoint, that endpoint stays, after
    any sequence of channel and io assignments, accepted or rejected,
    exactly what the constructor of its class builds from its current
    channel and io. *)
Theorem assignments_keep_fresh (k : cls) (channel io : pyval)
  (d : PbHubChannel) (l : list assignment) :
  PbHubChannel_init k channel io = Ret d ->
  fresh (assign_all l d) /\ klass (assign_all l d) = k /\
  byte_attrs (assign_all l d).
Proof.
  intros Hd. destruct (init_fresh _ _ _ _ Hd) as (Hk & _ & _ & Hf).
  clear Hd. revert d Hk Hf.
  induction l as [|a l IH]; intros d Hk Hf; cbn [assign_all].
  - split; [exact Hf|]. split; [exact Hk|]. now apply fresh_in_sync.
  - destruct (assign_fresh a d Hf) as (Hf' & Hk').
    apply IH; [congruence | exact Hf'].
Qed.

Lemma assignments_keep_fresh_witness :
  PbHubChannel_init PbHubServo (PyInt (-1)) (PyStr "1")
  = Ret {| klass := PbHubServo; _channel := PyInt (-1); _io := PyStr "1";
           _reg_num := None; _reg_num_angle := Some 0xAD;
           _reg_num_pulse := Some 0xAF |} /\
  PbHubChannel_init PbHubServo (PyInt 3) (PyInt 0)
  = Ret (assign_all [AssignIo (PyInt 0); AssignChannel (PyInt 9);
                     AssignChannel (PyInt 3); AssignIo PyNone]
           {| klass := PbHubServo; _channel := PyInt (-1); _io := PyStr "1";
              _reg_num := None; _reg_num_angle := Some 0xAD;
              _reg_num_pulse := Some 0xAF |}).
Proof.
  assert (Hd : PbHubChannel_init PbHubServo (PyInt (-1)) (PyStr "1")
               = Ret {| klass := PbHubServo; _channel := PyInt (-1);
                        _io := PyStr "1"; _reg_num := None;
                        _reg_num_angle := Some 0xAD;
                        _reg_num_pulse := Some 0xAF |}) by reflexivity.
  split; [exact Hd|].
  destruct (assignments_keep_fresh _ _ _ _
              [AssignIo (PyInt 0); AssignChannel (PyInt 9);
               AssignChannel (PyInt 3); AssignIo PyNone] Hd) as (Hf & _).
  exact Hf.
Defined.

(** X5: the setters keep an endpoint in range.  If channel is an int of
    0..5 and io an int of 0..1, they still are after any sequence of
    assignments. *)
Theorem assignments_keep_range (d : PbHubChannel) (l : list assignment) :
  fresh d -> in_range d -> in_range (assign_all l d).
Proof.
  revert d. induction l as [|a l IH]; intros d Hf Hr; cbn [assign_all];
    [exact Hr|].
  destruct (assign_fresh a d Hf) as (Hf' & _).
  apply IH; [exact Hf'|]. clear IH Hf'.
  destruct Hr as ((c & Hc & Hcr) & (i & Hi & Hir)).
  destruct a as [value | value]; cbn [assign].
  - destruct (channel_set_fresh d value Hf) as (Hrej & Hok).
    destruct (as_int value) as [v|] eqn:Hv.
    + destruct (Z_lt_le_dec v 0) as [Hlo | Hlo];
        [rewrite Hrej by (right; exists v; split; [reflexivity | lia]);
         cbn [snd]; split; eauto|].
      destruct (Z_lt_le_dec 5 v) as [Hhi | Hhi];
        [rewrite Hrej by (right; exists v; split; [reflexivity | lia]);
         cbn [snd]; split; eauto|].
      destruct (Hok v eq_refl (conj Hlo Hhi))
        as (d' & -> & _ & _ & Hc' & Hi' & _).
      cbn [snd]. unfold in_range. rewrite Hc', Hi', Hv. split; eauto.
    + rewrite Hrej by auto. cbn [snd]. split; eauto.
  - destruct (io_set_fresh d value Hf) as (Hrej & Hok).
    destruct (as_int value) as [v|] eqn:Hv.
    + destruct (Z_lt_le_dec v 0) as [Hlo | Hlo];
        [rewrite Hrej by (right; exists v; split; [reflexivity | lia]);
         cbn [snd]; split; eauto|].
      destruct (Z_lt_le_dec 1 v) as [Hhi | Hhi];
        [rewrite Hrej by (right; exists v; split; [reflexivity | lia]);
         cbn [snd]; split; eauto|].
      destruct (Hok v eq_refl (conj Hlo Hhi))
        as (d' & -> & _ & _ & Hc' & Hi' & _).
      cbn [snd]. unfold in_range. rewrite Hc', Hi', Hv. split; eauto.
    + rewrite Hrej by auto. cbn [snd]. split; eauto.
Qed.

Lemma assignments_keep_range_witness :
  fresh pwm_1_0 /\ in_range pwm_1_0 /\
  in_range (assign_all [AssignChannel (PyInt 7); AssignIo (PyInt 1);
                        AssignChannel (PyFloat (FFin 2))] pwm_1_0).
Proof.
  assert (Hf : fresh pwm_1_0) by reflexivity.
  assert (Hr : in_range pwm_1_0).
  { split; [exists 1 | exists 0]; split; (reflexivity || lia). }
  split; [exact Hf|]. split; [exact Hr|].
  apply (assignments_keep_range pwm_1_0 _ Hf Hr).
Defined.

(** ** Devices: what is written, what is read back *)

Lemma fresh_reg_num (d : PbHubChannel) :
  fresh d -> klass d <> PbHubServo ->
  exists r, _reg_num d = Some r /\ 0 <= r <= 255.
Proof.
  intros Hf Hk. destruct (fresh_in_sync d Hf) as (_ & Hb & _).
  destruct (fresh_base d Hf) as (b & Hbase). revert Hf Hb.
  unfold fresh, PbHubChannel_init, _set_reg, io_reg, chan_reg.
  destruct d as [k ch io r ra rp]. cbn [klass] in Hk.
  destruct k; try congruence; py_cbv_all; rewrite Hbase; py_cbv_all;
    intros [= <- <- <-]; cbn [byte_attr]; eauto.
Qed.

Lemma fresh_servo_regs (d : PbHubChannel) :
  fresh d -> klass d = PbHubServo ->
  exists a p,
    _reg_num_angle d = Some a /\ _reg_num_pulse d = Some p /\
    0 <= a <= 255 /\ 0 <= p <= 255.
Proof.
  intros Hf Hk. destruct (fresh_in_sync d Hf) as (_ & _ & Ha & Hp).
  destruct (fresh_base d Hf) as (b & Hbase). revert Hf Ha Hp.
  unfold fresh, PbHubChannel_init, _set_reg, io_reg, chan_reg.
  destruct d as [k ch io r ra rp]. cbn [klass] in Hk. subst k.
  py_cbv_all. rewrite Hbase. py_cbv_all. rewrite Hbase. py_cbv_all.
  intros [= <- <- <-]. cbn [byte_attr]. eauto 6.
Qed.

Lemma byte_val_to_byte (z : Z) : 0 <= z <= 255 -> byte_val (to_byte z) = z.
Proof.
  intros Hz. unfold byte_val, to_byte.
  destruct (Byte.of_N (Z.to_N z)) as [b|] eqn:E.
  - apply Byte.to_of_N in E. rewrite E. lia.
  - apply Byte.of_N_None_iff in E. lia.
Qed.

(** Low byte first: the value of two bytes. *)
Lemma lor_shift_add (h l : Z) :
  0 <= l <= 255 -> Z.lor (Z.shiftl h 8) l = 256 * h + l.
Proof.
  intros Hl. rewrite <- Z.lxor_lor, <- Z.add_nocarry_lxor.
  - rewrite Z.shiftl_mul_pow2 by lia. change (2 ^ 8) with 256. lia.
  - apply Z.bits_inj'. intros n Hn. rewrite Z.land_spec, Z.bits_0.
    destruct (Z.ltb_spec n 8).
    + rewrite Z.shiftl_spec_low by lia. reflexivity.
    + rewrite (byte_bits_high l n) by lia. apply andb_false_r.
  - apply Z.bits_inj'. intros n Hn. rewrite Z.land_spec, Z.bits_0.
    destruct (Z.ltb_spec n 8).
    + rewrite Z.shiftl_spec_low by lia. reflexivity.
    + rewrite (byte_bits_high l n) by lia. apply andb_false_r.
Qed.

(** A 16-bit value splits into the two bytes the pulse setter writes. *)
Lemma split_16 (v : Z) :
  0 <= v < 65536 ->
  Z.land v 0xFF = v mod 256 /\ Z.shiftr (Z.land v 0xFF00) 8 = v / 256 /\
  0 <= v / 256 <= 255.
Proof.
  intros Hv.
  assert (Hq : 0 <= v / 256 <= 255).
  { split; [apply Z.div_pos; lia|].
    assert (v / 256 < 256) by (apply Z.div_lt_upper_bound; lia). lia. }
  split; [|split; [|exact Hq]].
  - change (Z.land v 0xFF) with (Z.land v (Z.ones 8)).
    now rewrite Z.land_ones by lia.
  - rewrite Z.shiftr_land. change (Z.shiftr 0xFF00 8) with 0xFF.
    rewrite Z.shiftr_div_pow2 by lia. change (2 ^ 8) with 256.
    now apply land_byte_id.
Qed.

Section Reads.

Variables (self : PbHubChannel) (r : Z).
Hypothesis r_byte : 0 <= r <= 255.
Variables (t : list (list op)) (rest : list byte).

Lemma DigitalInput_value_run (x : byte) :
  _reg_num self = Some r ->
  DigitalInput_value self {| txs := t; pending := x :: rest |}
  = (Ret (PyBool (byte_val x =? 1)), read_done t r 1 rest).
Proof.
  intros Hr. unfold DigitalInput_value. rewrite Hr.
  run_stores. now rewrite bind_run, read_run.
Qed.

Lemma DigitalOutput_value_run (x : byte) :
  _reg_num self = Some r ->
  DigitalOutput_value self {| txs := t; pending := x :: rest |}
  = (Ret (PyBool (byte_val x =? 1)), read_done t r 1 rest).
Proof.
  intros Hr. unfold DigitalOutput_value. rewrite Hr.
  run_stores. now rewrite bind_run, read_run.
Qed.

Lemma AnalogInput_value_run (lo hi : byte) :
  _reg_num self = Some r ->
  AnalogInput_value self {| txs := t; pending := lo :: hi :: rest |}
  = (Ret (PyInt (256 * byte_val hi + byte_val lo)), read_done t r 2 rest).
Proof.
  intros Hr. unfold AnalogInput_value. rewrite Hr.
  run_stores. rewrite bind_run, read_run.
  cbn [pending List.length Nat.leb firstn skipn map load nth].
  now rewrite lor_shift_add by apply byte_val_range.
Qed.

Lemma PwmOutput_value_run (x : byte) :
  _reg_num self = Some r ->
  PwmOutput_value self {| txs := t; pending := x :: rest |}
  = (Ret (PyInt (byte_val x)), read_done t r 1 rest).
Proof.
  intros Hr. unfold PwmOutput_value. rewrite Hr.
  run_stores. now rewrite bind_run, read_run.
Qed.

Lemma Servo_angle_run (x : byte) :
  _reg_num_angle self = Some r ->
  Servo_angle self {| txs := t; pending := x :: rest |}
  = (Ret (PyInt (byte_val x)), read_done t r 1 rest).
Proof.
  intros Hr. unfold Servo_angle. rewrite Hr.
  run_stores. now rewrite bind_run, read_run.
Qed.

Lemma Servo_pulse_run (lo hi : byte) :
  _reg_num_pulse self = Some r ->
  Servo_pulse self {| txs := t; pending := lo :: hi :: rest |}
  = (Ret (PyInt (256 * byte_val hi + byte_val lo)), read_done t r 2 rest).
Proof.
  intros Hr. unfold Servo_pulse. rewrite Hr.
  run_stores. rewrite bind_run, read_run.
  cbn [pending List.length Nat.leb firstn skipn map load nth].
  now rewrite lor_shift_add by apply byte_val_range.
Qed.

End Reads.

(** X6: the PWM setter.  A value that is not an int of 0..255 raises
    ValueError before the bus is touched; an int of 0..255 goes out in
    exactly one write [selector, value]. *)
Theorem PwmOutput_assignment (d : PbHubChannel) (value : pyval) (b : bus) :
  fresh d -> klass d = PbHubPwmOutput ->
  exists r,
    _reg_num d = Some r /\
    (as_int value = None \/
     (exists v, as_int value = Some v /\ (v < 0 \/ 255 < v)) ->
     PwmOutput_value_set d value b = (Raise ValueError, b)) /\
    (forall v, as_int value = Some v -> 0 <= v <= 255 ->
       PwmOutput_value_set d value b = (Ret tt, sent b [r; v])).
Proof.
  intros Hf Hk.
  destruct (fresh_reg_num d Hf) as (r & Hr & Hb); [congruence|].
  exists r. split; [exact Hr|]. split.
  - intros [Hv | (v & Hv & Hout)]; unfold PwmOutput_value_set; rewrite Hv;
      [reflexivity|].
    now rewrite range_test_true by lia.
  - intros v Hv Hrange. now apply PwmOutput_value_set_run.
Qed.

Lemma PwmOutput_assignment_witness :
  fresh pwm_1_0 /\ klass pwm_1_0 = PbHubPwmOutput /\
  PwmOutput_value_set pwm_1_0 (PyInt 256) idle = (Raise ValueError, idle) /\
  PwmOutput_value_set pwm_1_0 (PyInt 255) idle
  = (Ret tt, sent idle [0x52; 255]).
Proof.
  assert (Hf : fresh pwm_1_0) by reflexivity.
  assert (Hk : klass pwm_1_0 = PbHubPwmOutput) by reflexivity.
  split; [exact Hf|]. split; [exact Hk|]. split.
  - destruct (PwmOutput_assignment pwm_1_0 (PyInt 256) idle Hf Hk)
      as (r & _ & Hrej & _).
    apply Hrej. right. exists 256. split; [reflexivity | lia].
  - destruct (PwmOutput_assignment pwm_1_0 (PyInt 255) idle Hf Hk)
      as (r & Hr & _ & Hok).
    injection Hr as <-. apply (Hok 255 eq_refl). lia.
Defined.

(** X7: the servo angle setter, in the same way with the range 0..180. *)
Theorem Servo_angle_assignment (d : PbHubChannel) (angle : pyval) (b : bus) :
  fresh d -> klass d = PbHubServo ->
  exists r,
    _reg_num_angle d = Some r /\
    (as_int angle = None \/
     (exists v, as_int angle = Some v /\ (v < 0 \/ 180 < v)) ->
     Servo_angle_set d angle b = (Raise ValueError, b)) /\
    (forall v, as_int angle = Some v -> 0 <= v <= 180 ->
       Servo_angle_set d angle b = (Ret tt, sent b [r; v])).
Proof.
  intros Hf Hk.
  destruct (fresh_servo_regs d Hf Hk) as (r & p & Hr & _ & Hb & _).
  exists r. split; [exact Hr|]. split.
  - intros [Hv | (v & Hv & Hout)]; unfold Servo_angle_set; rewrite Hv;
      [reflexivity|].
    now rewrite range_test_true by lia.
  - intros v Hv Hrange. now apply Servo_angle_set_run.
Qed.

Lemma Servo_angle_assignment_witness :
  fresh servo_2_1 /\ klass servo_2_1 = PbHubServo /\
  Servo_angle_set servo_2_1 (PyInt 181) idle = (Raise ValueError, idle) /\
  Servo_angle_set servo_2_1 (PyInt 180) idle
  = (Ret tt, sent idle [0x6D; 180]).
Proof.
  assert (Hf : fresh servo_2_1) by reflexivity.
  assert (Hk : klass servo_2_1 = PbHubServo) by reflexivity.
  split; [exact Hf|]. split; [exact Hk|]. split.
  - destruct (Servo_angle_assignment servo_2_1 (PyInt 181) idle Hf Hk)
      as (r & _ & Hrej & _).
    apply Hrej. right. exists 181. split; [reflexivity | lia].
  - destruct (Servo_angle_assignment servo_2_1 (PyInt 180) idle Hf Hk)
      as (r & Hr & _ & Hok).
    injection Hr as <-. apply (Hok 180 eq_refl). lia.
Defined.

(** X8: the servo pulse setter.  A width that is not an int of 500..2500
    raises ValueError before the bus is touched; an int of that range goes
    out in exactly one write [selector, low byte, high byte], low byte
    first. *)
Theorem Servo_pulse_assignment (d : PbHubChannel) (pulse_width : pyval)
  (b : bus) :
  fresh d -> klass d = PbHubServo ->
  exists r,
    _reg_num_pulse d = Some r /\
    (as_int pulse_width = None \/
     (exists v, as_int pulse_width = Some v /\ (v < 500 \/ 2500 < v)) ->
     Servo_pulse_set d pulse_width b = (Raise ValueError, b)) /\
    (forall v, as_int pulse_width = Some v -> 500 <= v <= 2500 ->
       Servo_pulse_set d pulse_width b
       = (Ret tt, sent b [r; v mod 256; v / 256]) /\
       1 <= v / 256 <= 9).
Proof.
  intros Hf Hk.
  destruct (fresh_servo_regs d Hf Hk) as (a & r & _ & Hr & _ & Hb).
  exists r. split; [exact Hr|]. split.
  - intros [Hv | (v & Hv & Hout)]; unfold Servo_pulse_set; rewrite Hv;
      [reflexivity|].
    now rewrite range_test_true by lia.
  - intros v Hv Hrange.
    destruct (split_16 v) as (Hlo & Hhi & _); [lia|].
    rewrite (Servo_pulse_set_run d r Hb pulse_width v b Hr Hv Hrange).
    rewrite Hlo, Hhi. split; [reflexivity|].
    assert (v / 256 < 10) by (apply Z.div_lt_upper_bound; lia).
    assert (1 <= v / 256) by (apply Z.div_le_lower_bound; lia). lia.
Qed.

Lemma Servo_pulse_assignment_witness :
  fresh servo_2_1 /\ klass servo_2_1 = PbHubServo /\
  Servo_pulse_set servo_2_1 (PyInt 499) idle = (Raise ValueError, idle) /\
  Servo_pulse_set servo_2_1 (PyInt 1500) idle
  = (Ret tt, sent idle [0x6F; 0xDC; 0x05]).
Proof.
  assert (Hf : fresh servo_2_1) by reflexivity.
  assert (Hk : klass servo_2_1 = PbHubServo) by reflexivity.
  split; [exact Hf|]. split; [exact Hk|]. split.
  - destruct (Servo_pulse_assignment servo_2_1 (PyInt 499) idle Hf Hk)
      as (r & _ & Hrej & _).
    apply Hrej. right. exists 499. split; [reflexivity | lia].
  - destruct (Servo_pulse_assignment servo_2_1 (PyInt 1500) idle Hf Hk)
      as (r & Hr & _ & Hok).
    injection Hr as <-.
    destruct (Hok 1500 eq_refl ltac:(lia)) as (Hrun & _). exact Hrun.
Defined.

(** X9: the digital output setter never raises: whatever value it is given,
    it issues exactly one write [selector, 1] when the value is true in the
    sense of Python and [selector, 0] otherwise. *)
Theorem DigitalOutput_assignment (d : PbHubChannel) (value : pyval)
  (b : bus) :
  fresh d -> klass d = PbHubDigitalOutput ->
  exists r,
    _reg_num d = Some r /\
    DigitalOutput_value_set d value b
    = (Ret tt, sent b [r; if py_truthy value then 1 else 0]).
Proof.
  intros Hf Hk.
  destruct (fresh_reg_num d Hf) as (r & Hr & Hb); [congruence|].
  exists r. split; [exact Hr|]. now apply DigitalOutput_value_set_run.
Qed.

Lemma DigitalOutput_assignment_witness :
  fresh output_5_1 /\ klass output_5_1 = PbHubDigitalOutput /\
  DigitalOutput_value_set output_5_1 (PyStr "off") idle
  = (Ret tt, sent idle [0xA1; 1]).
Proof.
  assert (Hf : fresh output_5_1) by reflexivity.
  assert (Hk : klass output_5_1 = PbHubDigitalOutput) by reflexivity.
  split; [exact Hf|]. split; [exact Hk|].
  destruct (DigitalOutput_assignment output_5_1 (PyStr "off") idle Hf Hk)
    as (r & Hr & Hrun).
  injection Hr as <-. exact Hrun.
Defined.

(** X10: what an analog input returns.  One transaction, the selector written
    and two bytes read; the value is the second byte times 256 plus the
    first, so anything from 0 to 65535: the driver does not cut it down to
    the 12 bits of the converter. *)
Theorem AnalogInput_value_decodes (d : PbHubChannel) (t : list (list op))
  (lo hi : byte) (rest : list byte) :
  fresh d -> klass d = PbHubAnalogInput ->
  exists r,
    _reg_num d = Some r /\
    AnalogInput_value d {| txs := t; pending := lo :: hi :: rest |}
    = (Ret (PyInt (256 * byte_val hi + byte_val lo)), read_done t r 2 rest) /\
    0 <= 256 * byte_val hi + byte_val lo <= 65535.
Proof.
  intros Hf Hk.
  destruct (fresh_reg_num d Hf) as (r & Hr & Hb); [congruence|].
  exists r. split; [exact Hr|]. split.
  - now apply AnalogInput_value_run.
  - pose proof (byte_val_range lo). pose proof (byte_val_range hi). lia.
Qed.

Lemma AnalogInput_value_decodes_witness :
  fresh analog_3 /\ klass analog_3 = PbHubAnalogInput /\
  AnalogInput_value analog_3 (answering [x34; x12; xff])
  = (Ret (PyInt 0x1234),
     {| txs := [[Write [0x76]; ReadInto 2]]; pending := [xff] |}).
Proof.
  assert (Hf : fresh analog_3) by reflexivity.
  assert (Hk : klass analog_3 = PbHubAnalogInput) by reflexivity.
  split; [exact Hf|]. split; [exact Hk|].
  destruct (AnalogInput_value_decodes analog_3 [] x34 x12 [xff] Hf Hk)
    as (r & Hr & Hrun & _).
  injection Hr as <-. exact Hrun.
Defined.

(** X11: single-byte round trips.  On a hub whose register answers a read
    with the payload last written to it, the PWM value and the servo angle
    read back the int that was assigned. *)
Theorem byte_round_trips (d : PbHubChannel) (value : pyval) (v : Z)
  (b : bus) (t : list (list op)) (rest : list byte) :
  fresh d -> as_int value = Some v ->
  (klass d = PbHubPwmOutput -> 0 <= v <= 255 ->
   exists data,
     PwmOutput_value_set d value b = (Ret tt, sent b data) /\
     fst (PwmOutput_value d {| txs := t; pending := echo data ++ rest |})
     = Ret (PyInt v)) /\
  (klass d = PbHubServo -> 0 <= v <= 180 ->
   exists data,
     Servo_angle_set d value b = (Ret tt, sent b data) /\
     fst (Servo_angle d {| txs := t; pending := echo data ++ rest |})
     = Ret (PyInt v)).
Proof.
  intros Hf Hv. split.
  - intros Hk Hr.
    destruct (fresh_reg_num d Hf) as (r & Hreg & Hb); [congruence|].
    exists [r; v]. split; [now apply PwmOutput_value_set_run|].
    cbn [echo tl map app].
    rewrite (PwmOutput_value_run d r Hb t rest _ Hreg). cbn [fst].
    now rewrite byte_val_to_byte.
  - intros Hk Hr.
    destruct (fresh_servo_regs d Hf Hk) as (r & p & Hreg & _ & Hb & _).
    exists [r; v]. split; [now apply Servo_angle_set_run|].
    cbn [echo tl map app].
    rewrite (Servo_angle_run d r Hb t rest _ Hreg). cbn [fst].
    rewrite byte_val_to_byte; [reflexivity | lia].
Qed.

Lemma byte_round_trips_witness :
  fresh pwm_1_0 /\
  exists data,
    PwmOutput_value_set pwm_1_0 (PyInt 127) idle = (Ret tt, sent idle data) /\
    fst (PwmOutput_value pwm_1_0 (answering (echo data ++ [])))
    = Ret (PyInt 127).
Proof.
  assert (Hf : fresh pwm_1_0) by reflexivity.
  split; [exact Hf|].
  destruct (byte_round_trips pwm_1_0 (PyInt 127) 127 idle [] [] Hf eq_refl)
    as (Hpwm & _).
  apply Hpwm; [reflexivity | lia].
Defined.

(** X12: the digital output round trip.  Whatever is assigned, on a hub that
    answers with the payload last written the getter returns its truth
    value, as a bool. *)
Theorem DigitalOutput_round_trip (d : PbHubChannel) (value : pyval)
  (b : bus) (t : list (list op)) (rest : list byte) :
  fresh d -> klass d = PbHubDigitalOutput ->
  exists data,
    DigitalOutput_value_set d value b = (Ret tt, sent b data) /\
    fst (DigitalOutput_value d {| txs := t; pending := echo data ++ rest |})
    = Ret (PyBool (py_truthy value)).
Proof.
  intros Hf Hk.
  destruct (fresh_reg_num d Hf) as (r & Hreg & Hb); [congruence|].
  exists [r; if py_truthy value then 1 else 0].
  split; [now apply DigitalOutput_value_set_run|].
  cbn [echo tl map app].
  rewrite (DigitalOutput_value_run d r Hb t rest _ Hreg). cbn [fst].
  now destruct (py_truthy value).
Qed.

Lemma DigitalOutput_round_trip_witness :
  fresh output_5_1 /\ klass output_5_1 = PbHubDigitalOutput /\
  exists data,
    DigitalOutput_value_set output_5_1 (PyInt 2) idle
    = (Ret tt, sent idle data) /\
    fst (DigitalOutput_value output_5_1 (answering (echo data ++ [])))
    = Ret (PyBool true).
Proof.
  assert (Hf : fresh output_5_1) by reflexivity.
  assert (Hk : klass output_5_1 = PbHubDigitalOutput) by reflexivity.
  split; [exact Hf|]. split; [exact Hk|].
  apply (DigitalOutput_round_trip output_5_1 (PyInt 2) idle [] [] Hf Hk).
Defined.

(** X13: the pulse round trip.  A width of 500..2500 goes out as two bytes,
    low byte first, and on a hub that answers with the payload last written
    the getter puts the two bytes together to the width assigned. *)
Theorem Servo_pulse_round_trip (d : PbHubChannel) (pulse_width : pyval)
  (v : Z) (b : bus) (t : list (list op)) (rest : list byte) :
  fresh d -> klass d = PbHubServo ->
  as_int pulse_width = Some v -> 500 <= v <= 2500 ->
  exists data,
    Servo_pulse_set d pulse_width b = (Ret tt, sent b data) /\
    List.length data = 3%nat /\
    fst (Servo_pulse d {| txs := t; pending := echo data ++ rest |})
    = Ret (PyInt v).
Proof.
  intros Hf Hk Hv Hr.
  destruct (fresh_servo_regs d Hf Hk) as (a & r & _ & Hreg & _ & Hb).
  destruct (split_16 v) as (Hlo & Hhi & Hq); [lia|].
  exists [r; Z.land v 0xFF; Z.shiftr (Z.land v 0xFF00) 8].
  split; [now apply Servo_pulse_set_run|]. split; [reflexivity|].
  cbn [echo tl map app].
  rewrite (Servo_pulse_run d r Hb t rest _ _ Hreg). cbn [fst].
  rewrite !byte_val_to_byte by auto with bytes.
  rewrite Hlo, Hhi. f_equal. f_equal.
  pose proof (Z.div_mod v 256). lia.
Qed.

Lemma Servo_pulse_round_trip_witness :
  fresh servo_2_1 /\ klass servo_2_1 = PbHubServo /\ 500 <= 1500 <= 2500 /\
  exists data,
    Servo_pulse_set servo_2_1 (PyInt 1500) idle = (Ret tt, sent idle data) /\
    List.length data = 3%nat /\
    fst (Servo_pulse servo_2_1 (answering (echo data ++ [])))
    = Ret (PyInt 1500).
Proof.
  assert (Hf : fresh servo_2_1) by reflexivity.
  assert (Hk : klass servo_2_1 = PbHubServo) by reflexivity.
  assert (Hr : 500 <= 1500 <= 2500) by lia.
  split; [exact Hf|]. split; [exact Hk|]. split; [exact Hr|].
  apply (Servo_pulse_round_trip servo_2_1 (PyInt 1500) 1500 idle [] []
           Hf Hk eq_refl Hr).
Defined.

(** ** Reading never writes *)

Lemma read_txs {A : Type} (r : Z) (len : nat) (f : list Z -> A) (b : bus) :
  txs (snd ((x <- with_device (i2c_write [r];;; i2c_readinto len);;
             ret (f x)) b))
  = txs b ++ [[Write [r]; ReadInto len]].
Proof.
  rewrite snd_bind_ret, read_run.
  now destruct (len <=? List.length (pending b))%nat.
Qed.

(** X14: no getter sends a payload.  Whatever the hub answers, and also when
    it does not answer, the one transaction a getter adds is the write of
    its selector alone followed by a read of one byte, or of two bytes for
    the analog value and the servo pulse. *)
Theorem getters_only_read (d : PbHubChannel) (b : bus) :
  fresh d ->
  txs (snd (firmware_version b)) = txs b ++ [[Write [0xFE]; ReadInto 1]] /\
  (klass d = PbHubDigitalInput ->
   exists r, _reg_num d = Some r /\
     txs (snd (DigitalInput_value d b))
     = txs b ++ [[Write [r]; ReadInto 1]]) /\
  (klass d = PbHubDigitalOutput ->
   exists r, _reg_num d = Some r /\
     txs (snd (DigitalOutput_value d b))
     = txs b ++ [[Write [r]; ReadInto 1]]) /\
  (klass d = PbHubAnalogInput ->
   exists r, _reg_num d = Some r /\
     txs (snd (AnalogInput_value d b))
     = txs b ++ [[Write [r]; ReadInto 2]]) /\
  (klass d = PbHubPwmOutput ->
   exists r, _reg_num d = Some r /\
     txs (snd (PwmOutput_value d b))
     = txs b ++ [[Write [r]; ReadInto 1]]) /\
  (klass d = PbHubServo ->
   exists a p,
     _reg_num_angle d = Some a /\ _reg_num_pulse d = Some p /\
     txs (snd (Servo_angle d b)) = txs b ++ [[Write [a]; ReadInto 1]] /\
     txs (snd (Servo_pulse d b)) = txs b ++ [[Write [p]; ReadInto 2]]).
Proof.
  intros Hf.
  assert (Hreg : klass d <> PbHubServo ->
                 exists r, _reg_num d = Some r /\ 0 <= r <= 255).
  { now apply fresh_reg_num. }
  split; [|repeat apply conj]; intros.
  - unfold firmware_version. run_stores. apply read_txs.
  - destruct Hreg as (r & Hr & Hb); [congruence|]. exists r.
    split; [exact Hr|]. unfold DigitalInput_value. rewrite Hr.
    run_stores. apply read_txs.
  - destruct Hreg as (r & Hr & Hb); [congruence|]. exists r.
    split; [exact Hr|]. unfold DigitalOutput_value. rewrite Hr.
    run_stores. apply read_txs.
  - destruct Hreg as (r & Hr & Hb); [congruence|]. exists r.
    split; [exact Hr|]. unfold AnalogInput_value. rewrite Hr.
    run_stores. apply read_txs.
  - destruct Hreg as (r & Hr & Hb); [congruence|]. exists r.
    split; [exact Hr|]. unfold PwmOutput_value. rewrite Hr.
    run_stores. apply read_txs.
  - destruct (fresh_servo_regs d Hf) as (a & p & Ha & Hp & Hab & Hpb);
      [assumption|].
    exists a, p. repeat split; try assumption.
    + unfold Servo_angle. rewrite Ha. run_stores. apply read_txs.
    + unfold Servo_pulse. rewrite Hp. run_stores. apply read_txs.
Qed.

Lemma getters_only_read_witness :
  fresh servo_2_1 /\
  txs (snd (Servo_pulse servo_2_1 idle)) = [[Write [0x6F]; ReadInto 2]].
Proof.
  assert (Hf : fresh servo_2_1) by reflexivity.
  split; [exact Hf|].
  destruct (getters_only_read servo_2_1 idle Hf)
    as (_ & _ & _ & _ & _ & Hservo).
  destruct (Hservo eq_refl) as (a & p & _ & Hp & _ & Hrun).
  injection Hp as <-. exact Hrun.
Defined.

(** ** The LED strip: all or nothing *)

Lemma store_length (buf buf' : list Z) (i : nat) (v : Z) :
  store buf i v = Ret buf' -> List.length buf' = List.length buf.
Proof.
  unfold store. destruct (i <? List.length buf)%nat eqn:Hi; [|discriminate].
  cbn [negb]. destruct ((v <? 0) || (255 <? v)); [discriminate|].
  intros H. apply Nat.ltb_lt in Hi.
  assert (E : buf' = firstn i buf ++ v :: skipn (S i) buf) by congruence.
  rewrite E, length_app, length_firstn, length_cons, length_skipn. lia.
Qed.

Lemma builds_setbyte (n : nat) (buf : list Z) (i : nat) (v : Z) :
  List.length buf = n -> builds n (setbyte buf i v).
Proof.
  intros Hn s. unfold setbyte, lift.
  destruct (store buf i v) as [buf'|e] eqn:E; [left | right; eauto].
  exists buf'. split; [reflexivity|]. apply store_length in E. congruence.
Qed.

Lemma builds_bind (n : nat) (m : ST bus (list Z))
  (k : list Z -> ST bus (list Z)) :
  builds n m -> (forall buf, List.length buf = n -> builds n (k buf)) ->
  builds n (x <- m;; k x).
Proof.
  intros Hm Hk s. rewrite bind_run.
  destruct (Hm s) as [(buf & -> & Hlen) | (e & ->)]; [|right; eauto].
  apply Hk. exact Hlen.
Qed.

Lemma builds_lift {A : Type} (n : nat) (o : outcome A)
  (k : A -> ST bus (list Z)) :
  (forall a, builds n (k a)) -> builds n (x <- lift o;; k x).
Proof.
  intros Hk s. rewrite bind_run. unfold lift.
  destruct o as [a|e]; [apply Hk | right; eauto].
Qed.

Lemma builds_store_color (n : nat) (buf : list Z) (i : nat) (color : pyval) :
  List.length buf = n -> builds n (NeoPixels.store_color buf i color).
Proof.
  intros Hn. unfold NeoPixels.store_color.
  destruct (as_int color) as [c|].
  - apply builds_bind; [now apply builds_setbyte|]. intros b1 H1.
    apply builds_bind; [now apply builds_setbyte|]. intros b2 H2.
    now apply builds_setbyte.
  - apply builds_lift. intros c0. apply builds_lift. intros r.
    apply builds_bind; [now apply builds_setbyte|]. intros b1 H1.
    apply builds_lift. intros c1. apply builds_lift. intros g.
    apply builds_bind; [now apply builds_setbyte|]. intros b2 H2.
    apply builds_lift. intros c2. apply builds_lift. intros bl.
    now apply builds_setbyte.
Qed.

Lemma builds_then (n : nat) (m : ST bus (list Z))
  (k : list Z -> ST bus unit) (b : bus) :
  builds n m ->
  (forall buf, List.length buf = n -> written n b (k buf b)) ->
  written n b ((buf <- m;; k buf) b).
Proof.
  intros Hm Hk. rewrite bind_run.
  destruct (Hm b) as [(buf & -> & Hlen) | (e & ->)]; [now apply Hk|].
  left. eauto.
Qed.

Lemma write_written (buf : list Z) (b : bus) :
  written (List.length buf) b (with_device (i2c_write buf) b).
Proof. right. exists buf. now rewrite with_device_write. Qed.

(** X15: an assignment to the strip is all or nothing.  For every instance,
    index and color the outcome is one of three: an exception with the bus
    untouched; nothing at all (the empty range); or exactly one
    transaction, a single write of 6 bytes for an index and of 8 bytes for
    a slice.  It never reads and never leaves a partial write behind. *)
Theorem setitem_all_or_nothing (self : NeoPixels.t) (index : pyindex)
  (color : pyval) (b : bus) :
  (exists e, NeoPixels.__setitem__ self index color b = (Raise e, b)) \/
  NeoPixels.__setitem__ self index color b = (Ret tt, b) \/
  (exists data,
      NeoPixels.__setitem__ self index color b = (Ret tt, sent b data) /\
      List.length data = match index with
                         | Slice _ _ _ => 8%nat
                         | Index _ => 6%nat
                         end).
Proof.
  assert (Hsplit : forall n r, written n b r ->
            (exists e, r = (Raise e, b)) \/ r = (Ret tt, b) \/
            (exists data, r = (Ret tt, sent b data) /\
                          List.length data = n)).
  { intros n r [H | H]; auto. }
  unfold NeoPixels.__setitem__.
  destruct index as [[start|] stop step | v];
    [ | left; eexists; reflexivity | ].
  - destruct ((start <? 0) || (start >? _MAX_NUM_OF_LED));
      [left; eexists; reflexivity|].
    destruct stop as [stop|]; [|left; eexists; reflexivity].
    destruct ((stop <? 0) || (stop >? _MAX_NUM_OF_LED));
      [left; eexists; reflexivity|].
    destruct (stop <? start); [left; eexists; reflexivity|].
    destruct (stop - start =? 0); [right; left; reflexivity|].
    cbv zeta. apply Hsplit.
    repeat (apply builds_then; [now apply builds_setbyte|]; intros ? ?).
    apply builds_then; [now apply builds_store_color|]. intros full <-.
    apply write_written.
  - destruct (as_int v) as [i|]; [|left; eexists; reflexivity].
    destruct ((i <? 0) || (i >? _MAX_NUM_OF_LED));
      [left; eexists; reflexivity|].
    cbv zeta. apply Hsplit.
    repeat (apply builds_then; [now apply builds_setbyte|]; intros ? ?).
    apply builds_then; [now apply builds_store_color|]. intros full <-.
    apply write_written.
Qed.

Lemma list_index_raises {A : Type} (l : list A) (i : Z) (e : exn) :
  list_index l i = Raise e -> e = IndexError.
Proof.
  unfold list_index. destruct ((_ <? 0) || (_ <=? _)); [congruence|].
  destruct (nth_error l _); congruence.
Qed.

Lemma setbyte_ok (buf : list Z) (i : nat) (v : Z) (s : bus) :
  (i < List.length buf)%nat -> 0 <= v <= 255 ->
  exists buf',
    setbyte buf i v s = (Ret buf', s) /\ List.length buf' = List.length buf.
Proof.
  intros Hi Hv. unfold setbyte, lift.
  pose proof (store_ok buf i v Hi Hv) as E. rewrite E.
  eexists. split; [reflexivity|]. now apply store_length in E.
Qed.

(** A color that is neither an int nor a sequence starting with three ints
    stops the color stores with a TypeError or an IndexError. *)
Lemma store_color_rejects (color : pyval) (buf : list Z) (i : nat) (s : bus) :
  rgb_of color = None -> (i + 2 < List.length buf)%nat ->
  exists e,
    (e = TypeError \/ e = IndexError) /\
    NeoPixels.store_color buf i color s = (Raise e, s).
Proof.
  intros Hrgb Hlen. unfold rgb_of in Hrgb. unfold NeoPixels.store_color.
  destruct (as_int color) as [c|] eqn:Hc; [discriminate|].
  destruct color as [ | bb | z | f | str | l]; try discriminate.
  - exists TypeError. split; [now left | reflexivity].
  - exists TypeError. split; [now left | reflexivity].
  - cbn [py_getitem].
    destruct (list_index (list_ascii_of_string str) 0) as [ch|e] eqn:E.
    + exists TypeError. split; [now left | reflexivity].
    + apply list_index_raises in E as ->.
      exists IndexError. split; [now right | reflexivity].
  - cbn [py_getitem].
    destruct l as [|c0 l];
      [exists IndexError; split; [now right | reflexivity]|].
    rewrite list_index_0, bind_lift_Ret. unfold py_and at 1.
    destruct (as_int c0) as [r0|];
      [|exists TypeError; split; [now left | reflexivity]].
    rewrite bind_lift_Ret, bind_run.
    destruct (setbyte_ok buf i (Z.land r0 255) s) as (b1 & -> & H1);
      [lia | apply land_byte|].
    destruct l as [|c1 l];
      [exists IndexError; split; [now right | reflexivity]|].
    rewrite list_index_1, bind_lift_Ret. unfold py_and at 1.
    destruct (as_int c1) as [g0|];
      [|exists TypeError; split; [now left | reflexivity]].
    rewrite bind_lift_Ret, bind_run.
    destruct (setbyte_ok b1 (i + 1) (Z.land g0 255) s) as (b2 & -> & H2);
      [lia | apply land_byte|].
    destruct l as [|c2 l];
      [exists IndexError; split; [now right | reflexivity]|].
    rewrite list_index_2, bind_lift_Ret. unfold py_and at 1.
    destruct (as_int c2) as [bl0|]; [discriminate|].
    exists TypeError. split; [now left | reflexivity].
Qed.

(** X16: a color the strip cannot use.  At a valid index or over a valid
    range that is not empty, a color that is neither an int nor a sequence
    starting with three ints raises TypeError or IndexError, never
    ValueError, and nothing is sent. *)
Theorem setitem_bad_color (self : NeoPixels.t) (color : pyval) (b : bus) :
  constructed self -> rgb_of color = None ->
  (forall index i, as_int index = Some i -> 0 <= i <= 74 ->
     exists e, (e = TypeError \/ e = IndexError) /\
       NeoPixels.__setitem__ self (Index index) color b = (Raise e, b)) /\
  (forall start stop step, 0 <= start -> start < stop -> stop <= 74 ->
     exists e, (e = TypeError \/ e = IndexError) /\
       NeoPixels.__setitem__ self (Slice (Some start) (Some stop) step)
         color b = (Raise e, b)).
Proof.
  intros Hself Hrgb.
  pose proof (one_led_reg_byte self Hself) as H1.
  pose proof (range_reg_byte self Hself) as H2.
  split.
  - intros index i Hi Hr. unfold NeoPixels.__setitem__. rewrite Hi.
    rewrite range_test_false by (unfold _MAX_NUM_OF_LED; lia).
    run_stores. rewrite bind_run.
    destruct (store_color_rejects color
                [NeoPixels._reg_num_one_led_color self; Z.land i 255;
                 Z.land (Z.shiftr i 8) 255; 0; 0; 0] 3 b Hrgb)
      as (e & He & ->); [cbn; lia|].
    exists e. split; [exact He | reflexivity].
  - intros start stop step H0 Hlt H74. unfold NeoPixels.__setitem__.
    rewrite !range_test_false by (unfold _MAX_NUM_OF_LED; lia).
    destruct (Z.ltb_spec stop start); [lia|].
    destruct (Z.eqb_spec (stop - start) 0); [lia|].
    run_stores. rewrite bind_run.
    destruct (store_color_rejects color
                [NeoPixels._reg_num_range_led_color self; Z.land start 255;
                 Z.land (Z.shiftr start 8) 255; Z.land (stop - start) 255;
                 Z.land (Z.shiftr (stop - start) 8) 255; 0; 0; 0] 5 b Hrgb)
      as (e & He & ->); [cbn; lia|].
    exists e. split; [exact He | reflexivity].
Qed.

Lemma setitem_bad_color_witness :
  constructed strip0 /\ rgb_of (PyList [PyInt 255; PyInt 0]) = None /\
  NeoPixels.__setitem__ strip0 (Index (PyInt 0)) (PyList [PyInt 255; PyInt 0])
    idle
  = (Raise IndexError, idle).
Proof.
  assert (H : constructed strip0).
  { exists (PyInt 0), 0. repeat split; lia. }
  split; [exact H|]. split; [reflexivity|].
  destruct (setitem_bad_color strip0 (PyList [PyInt 255; PyInt 0]) idle H
              eq_refl) as (Hone & _).
  destruct (Hone (PyInt 0) 0 eq_refl ltac:(lia)) as (e & _ & Hrun).
  pose proof Hrun as Hc. vm_compute in Hc. injection Hc as Hc.
  rewrite <- Hc in Hrun. exact Hrun.
Defined.

(** ** The LED strip: count, fill and brightness together *)

(** X17: the count that was set is the count that is filled.  After the
    count n of 0..74 has been written, on a hub that answers the count read
    with the payload last written, the getter returns n and [fill] covers
    exactly the LEDs 0..n-1: one range write with start 0 and count n, or no
    write at all when n is 0. *)
Theorem count_then_fill (self : NeoPixels.t) (number color : pyval) (n : Z)
  (r g bl : Z) (b : bus) (rest : list byte) :
  constructed self ->
  as_int number = Some n -> 0 <= n <= 74 ->
  rgb_of color = Some (r, g, bl) ->
  exists data,
    NeoPixels.number_of_leds_set self number b = (Ret tt, sent b data) /\
    let hub := {| txs := txs (sent b data); pending := echo data ++ rest |} in
    let read := [Write [NeoPixels._reg_num_num_leds self]; ReadInto 1] in
    fst (NeoPixels.number_of_leds self hub) = Ret (PyInt n) /\
    fst (NeoPixels.fill self color hub) = Ret tt /\
    txs (snd (NeoPixels.fill self color hub))
    = txs (sent b data) ++ read ::
        (if n =? 0 then []
         else [[Write [NeoPixels._reg_num_range_led_color self;
                       0; 0; n; 0; r; g; bl]]]).
Proof.
  intros Hself Hn Hr Hrgb.
  exists [NeoPixels._reg_num_num_leds self; Z.land n 0xFF; Z.shiftr n 8].
  split; [now apply number_of_leds_set_run|].
  cbn [echo tl map app].
  assert (Hbyte : byte_val (to_byte (Z.land n 255)) = n).
  { rewrite land_byte_id by lia. apply byte_val_to_byte. lia. }
  cbv zeta. rewrite fill_run, number_of_leds_run by exact Hself.
  rewrite Hbyte. cbn [fst]. split; [reflexivity|].
  destruct (Z.eqb_spec n 0) as [-> | Hnz].
  - now rewrite setitem_slice_empty by lia.
  - rewrite (setitem_slice_run self Hself 0 n None color r g bl)
      by (assumption || lia).
    rewrite Z.sub_0_r, (land_byte_id n), (shiftr8_small n) by lia.
    cbn [fst snd sent after txs]. rewrite <- app_assoc. now split.
Qed.

Lemma count_then_fill_witness :
  constructed strip0 /\ 0 <= 10 <= 74 /\
  exists data,
    NeoPixels.number_of_leds_set strip0 (PyInt 10) idle
    = (Ret tt, sent idle data) /\
    txs (snd (NeoPixels.fill strip0 (PyInt 0xFFFF00)
                {| txs := txs (sent idle data);
                   pending := echo data ++ [] |}))
    = [[Write [0x48; 10; 0]]; [Write [0x48]; ReadInto 1];
       [Write [0x4A; 0; 0; 10; 0; 0xFF; 0xFF; 0x00]]].
Proof.
  assert (H : constructed strip0).
  { exists (PyInt 0), 0. repeat split; lia. }
  assert (Hr : 0 <= 10 <= 74) by lia.
  split; [exact H|]. split; [exact Hr|].
  destruct (count_then_fill strip0 (PyInt 10) (PyInt 0xFFFF00) 10
              0xFF 0xFF 0x00 idle [] H eq_refl Hr eq_refl)
    as (data & Hset & _ & _ & Htxs).
  exists data. split; [exact Hset|].
  rewrite Htxs. pose proof Hset as Hc. vm_compute in Hc.
  injection Hc as Hc. rewrite <- Hc. reflexivity.
Defined.

(** X18: what the brightness getter returns can be assigned back.  Whatever
    byte the hub answers, the getter returns a float between 0.0 and 1.0,
    and the setter accepts that value and writes one brightness byte. *)
Theorem brightness_read_is_assignable {FF : FloatFormat}
  (self : NeoPixels.t) (t : list (list op)) (x : byte) (rest : list byte)
  (b : bus) :
  constructed self ->
  exists q k,
    NeoPixels.brightness self {| txs := t; pending := x :: rest |}
    = (Ret (PyFloat (FFin q)),
       read_done t (NeoPixels._reg_num_num_leds self) 1 rest) /\
    (0 <= q)%Q /\ (q <= 1)%Q /\
    NeoPixels.brightness_set self (PyFloat (FFin q)) b
    = (Ret tt, sent b [NeoPixels._reg_num_brightness self; k]) /\
    0 <= k <= 255.
Proof.
  intros Hself. pose proof (byte_val_range x) as Hx.
  destruct (brightness_run self Hself t x rest) as (r & Hr & Hrun).
  destruct (fround_interval 0 1 (inject_Z (byte_val x) / 255))
    as (r' & Hr' & H0 & H1); try lia.
  { apply Qle_shift_div_l; [reflexivity|].
    rewrite Qmult_0_l. change 0%Q with (inject_Z 0).
    rewrite <- Zle_Qle. lia. }
  { apply Qle_shift_div_r; [reflexivity|].
    change (inject_Z 1 * 255)%Q with (inject_Z 255).
    rewrite <- Zle_Qle. lia. }
  assert (r' = r) as -> by congruence.
  destruct (round_half_even_bounds 0 100 (r * 100)) as (Hm0 & Hm1).
  { change (inject_Z 0) with 0%Q in *. lra. }
  { change (inject_Z 100) with 100%Q. change (inject_Z 1) with 1%Q in *.
    lra. }
  destruct (fround_interval 0 1
              (inject_Z (round_half_even (r * 100)) / 100))
    as (q & Hq & Hq0 & Hq1); try lia.
  { apply Qle_shift_div_l; [reflexivity|].
    rewrite Qmult_0_l. change 0%Q with (inject_Z 0).
    now rewrite <- Zle_Qle. }
  { apply Qle_shift_div_r; [reflexivity|].
    change (inject_Z 1 * 100)%Q with (inject_Z 100).
    now rewrite <- Zle_Qle. }
  change (inject_Z 0) with 0%Q in Hq0. change (inject_Z 1) with 1%Q in Hq1.
  assert (Hunit : in_unit (FFin q) = true).
  { cbn [in_unit]. apply andb_true_iff. now rewrite !Qle_bool_iff. }
  destruct (brightness_byte_ok (PyFloat (FFin q)) (FFin q) eq_refl Hunit)
    as (k & Hk & Hkr).
  exists q, k. rewrite Hrun, Hq. repeat split; try assumption; try lia.
  now apply (brightness_set_run self Hself (PyFloat (FFin q)) (FFin q) k b).
Qed.

Lemma brightness_read_is_assignable_witness :
  constructed strip0 /\
  exists q k,
    @NeoPixels.brightness binary64 strip0 (answering [x80])
    = (Ret (PyFloat (FFin q)), read_done [] 0x48 1 []) /\
    @NeoPixels.brightness_set binary64 strip0 (PyFloat (FFin q)) idle
    = (Ret tt, sent idle [0x4B; k]).
Proof.
  assert (H : constructed strip0).
  { exists (PyInt 0), 0. repeat split; lia. }
  split; [exact H|].
  destruct (@brightness_read_is_assignable binary64 strip0 [] x80 [] idle H)
    as (q & k & Hget & _ & _ & Hset & _).
  exists q, k. split; [exact Hget | exact Hset].
Defined.

(** ** Selectors never collide *)








(** X20: what a digital input returns.  One transaction, the selector written
    and one byte read; the value is the bool that tells whether that byte is
    exactly 1, so every other answer, the non-zero ones as well, reads as
    False. *)
Theorem DigitalInput_value_decodes (d : PbHubChannel) (t : list (list op))
  (x : byte) (rest : list byte) :
  fresh d -> klass d = PbHubDigitalInput ->
  exists r,
    _reg_num d = Some r /\
    snd (DigitalInput_value d {| txs := t; pending := x :: rest |})
    = read_done t r 1 rest /\
    (byte_val x = 1 ->
     fst (DigitalInput_value d {| txs := t; pending := x :: rest |})
     = Ret (PyBool true)) /\
    (byte_val x <> 1 ->
     fst (DigitalInput_value d {| txs := t; pending := x :: rest |})
     = Ret (PyBool false)).
Proof.
  intros Hf Hk.
  destruct (fresh_reg_num d Hf) as (r & Hr & Hb); [congruence|].
  exists r. split; [exact Hr|].
  rewrite (DigitalInput_value_run d r Hb t rest x Hr). cbn [fst snd].
  split; [reflexivity|]. split; intros Hx.
  - now rewrite Hx.
  - apply Z.eqb_neq in Hx. now rewrite Hx.
Qed.

Lemma DigitalInput_value_decodes_witness :
  fresh input_0_0 /\ klass input_0_0 = PbHubDigitalInput /\
  fst (DigitalInput_value input_0_0 (answering [xff])) = Ret (PyBool false) /\
  fst (DigitalInput_value input_0_0 (answering [x01])) = Ret (PyBool true).
Proof.
  assert (Hf : fresh input_0_0) by reflexivity.
  assert (Hk : klass input_0_0 = PbHubDigitalInput) by reflexivity.
  split; [exact Hf|]. split; [exact Hk|]. split.
  - destruct (DigitalInput_value_decodes input_0_0 [] xff [] Hf Hk)
      as (r & _ & _ & _ & Hoff).
    apply Hoff. discriminate.
  - destruct (DigitalInput_value_decodes input_0_0 [] x01 [] Hf Hk)
      as (r & _ & _ & Hon & _).
    apply Hon. reflexivity.
Defined.
